(** * intel_npu_acceleration_library.backend: ops, tensor, qmatmul

    A shallow embedding of three Python modules of the NPU acceleration
    library and the properties their specification states about them.

    - [ops.py]     the memoised table of supported operations;
    - [tensor.py]  tensor handles, the queries, the operator overloads
                   and the module-level primitive [__generate_op];
    - [qmatmul.py] the shape checks of [QMatMul.run].

    Python objects of class [Tensor] live in an object store and are
    passed around by reference; every crossing of the foreign boundary
    (a factory method, a [backend_lib] query) is recorded in a trace, so
    that "no foreign call was made" and "exactly these nodes were
    allocated" are statements about the final state.  The native backend
    and the [NNFactory] class are not part of the three modules: they
    are an interface here ([Backend]), and a small reference
    implementation of it is used to run the examples.

    Inside the body of [class Tensor] the operator methods name
    [__generate_op].  An identifier with two leading underscores that
    occurs in a class body is a private name: it is compiled as
    [_Tensor__generate_op], which the module does not bind.  The
    embedding follows the compiled program: every such method looks the
    rewritten name up among the module's globals before it evaluates
    the arguments of the call. *)

From stdpp Require Import base gmap list strings pretty.
From Stdlib Require Import Ascii.
From Stdlib Require QArith.

(** ** Python values, exceptions and outcomes *)

(** The semantic types of [intel_npu_acceleration_library.dtypes]
    together with [np.bool]. *)
Inductive NPUDtype :=
| np_bool | bfloat16 | float16 | float32 | float64
| int4 | int8 | int16 | int32 | int64.

(** Identity of an [NNFactory] instance (factories are compared and
    hashed by identity when they are put in a set). *)
Definition NNFactory := nat.

(** A [ctypes] pointer to a node of the backend graph. *)
Definition node_ref := nat.

(** Reference to a Python object in the object store. *)
Definition pyref := nat.

(** Extra positional or keyword arguments handed to a factory method. *)
Inductive pyarg :=
| ArgInt (z : Z)
| ArgBool (b : bool)
| ArgList (l : list Z).

Inductive exn :=
| ValueError (msg : string)
| RuntimeError (msg : string)
| IndexError (msg : string)
| AttributeError (msg : string)
| NameError (msg : string)
| TypeError (msg : string)
| OverflowError (msg : string)
| ForeignError (msg : string).

Inductive outcome (A : Type) :=
| Ok (a : A)
| Raise (e : exn).
Arguments Ok {A} a.
Arguments Raise {A} e.

(** [@dataclass class Tensor]: the two stored fields. *)
Record Tensor := mkTensor { factory : NNFactory; node : node_ref }.

(** One crossing of the foreign boundary. *)
Inductive event :=
| EvParameter (f : NNFactory) (shp : list Z) (dt : NPUDtype)
| EvOp (f : NNFactory) (op : string) (nodes : list node_ref)
       (args : list pyarg) (kwargs : list (string * pyarg))
| EvShapeSize (n : node_ref)
| EvShape (n : node_ref) (i : Z)
| EvDtype (n : node_ref).

(** ** The foreign boundary

    What [tensor.py] uses of [NNFactory] and of [backend_lib]:
    [factory.parameter], the factory method looked up by operation name
    (called with the nodes, then the extra positional arguments, then
    the keyword arguments), [op_shape_size], [op_shape] and [op_dtype]. *)
Record Backend := mkBackend {
  bstate : Type;
  be_parameter : NNFactory → list Z → NPUDtype → bstate → outcome node_ref * bstate;
  be_op : NNFactory → string → list node_ref → list pyarg →
          list (string * pyarg) → bstate → outcome node_ref * bstate;
  be_op_shape_size : node_ref → bstate → Z;
  be_op_shape : node_ref → Z → bstate → Z;
  be_op_dtype : node_ref → bstate → Z
}.

(** The state a call runs in: the backend, the trace of foreign calls
    made so far (oldest first) and the store of [Tensor] objects. *)
Record world (BE : Backend) := mkWorld {
  backend : bstate BE;
  trace : list event;
  heap : list Tensor
}.
Arguments mkWorld {BE} _ _ _.
Arguments backend {BE} _.
Arguments trace {BE} _.
Arguments heap {BE} _.

(** A Python computation: it ends in a value or an exception, and the
    state survives an exception. *)
Definition M (BE : Backend) (A : Type) : Type := world BE → outcome A * world BE.

Definition ret {BE A} (a : A) : M BE A := fun w => (Ok a, w).

Definition raise {BE A} (e : exn) : M BE A := fun w => (Raise e, w).

Definition bind {BE A B} (c : M BE A) (k : A → M BE B) : M BE B :=
  fun w =>
    match c w with
    | (Ok a, w') => k a w'
    | (Raise e, w') => (Raise e, w')
    end.

Declare Scope py_scope.
Delimit Scope py_scope with py.
Notation "x <- c ;; k" := (bind c (fun x => k))
  (at level 100, c at next level, right associativity) : py_scope.
Open Scope py_scope.

(** A comprehension [[f(a) for a in l]] whose body may call out or raise. *)
Fixpoint for_each {BE A B} (f : A → M BE B) (l : list A) : M BE (list B) :=
  match l with
  | [] => ret []
  | a :: l' => b <- f a ;; bs <- for_each f l' ;; ret (b :: bs)
  end.

(** ** Python sequences *)

(** [range(n)] *)
Definition py_range (n : Z) : list Z :=
  Z.of_nat <$> seq 0 (Z.to_nat n).

(** Position addressed by index [i] in a sequence of length [len]:
    negative indices count from the end. *)
Definition py_index (len : nat) (i : Z) : option nat :=
  if (0 <=? i)%Z then
    (if (i <? Z.of_nat len)%Z then Some (Z.to_nat i) else None)
  else
    (if (0 <=? Z.of_nat len + i)%Z then Some (Z.to_nat (Z.of_nat len + i)) else None).

(** [l[i]] *)
Definition py_getitem {A} (kind : string) (l : list A) (i : Z) : outcome A :=
  match py_index (length l) i with
  | Some k =>
      match l !! k with
      | Some a => Ok a
      | None => Raise (IndexError (kind +:+ " index out of range"))
      end
  | None => Raise (IndexError (kind +:+ " index out of range"))
  end.

(** [l[i] = x] *)
Definition py_setitem {A} (l : list A) (i : Z) (x : A) : outcome (list A) :=
  match py_index (length l) i with
  | Some k => Ok (<[k := x]> l)
  | None => Raise (IndexError "list assignment index out of range")
  end.

(** A step that touches neither the backend nor the object store. *)
Definition lift {BE A} (o : outcome A) : M BE A := fun w => (o, w).

(** ** Numbers that leave NumPy *)

(** What [np.product] can hand back: a NumPy scalar of one of three
    dtypes, or a Python integer (the items of an [object] array). *)
Inductive np_scalar :=
| np_int64 (z : Z)
| np_uint64 (z : Z)
| np_float64 (q : QArith_base.Q)
| py_int (z : Z).

Definition fits_int64 (z : Z) : bool :=
  ((- 2 ^ 63 <=? z) && (z <? 2 ^ 63))%Z.

(** Two's-complement wrap-around of an [int64] multiplication. *)
Definition wrap_int64 (z : Z) : Z :=
  ((z + 2 ^ 63) mod 2 ^ 64 - 2 ^ 63)%Z.

(** [np.product] of a list of Python integers.  The empty list becomes
    an array of dtype [float64], whose product is [1.0].  A list whose
    items all fit in 64 signed bits becomes an [int64] array (the
    platform integer where it is 64 bits wide), multiplied with
    wrap-around.  For a list with a wider item NumPy picks another
    dtype; that part is the parameter [np_wide]. *)
Definition np_product (np_wide : list Z → np_scalar) (l : list Z) : np_scalar :=
  match l with
  | [] => np_float64 (QArith_base.Qmake 1 1)
  | _ :: _ =>
      if forallb fits_int64 l then np_int64 (wrap_int64 (foldr Z.mul 1%Z l))
      else np_wide l
  end.

(** [sys.maxsize] of a 64-bit build. *)
Definition sys_maxsize : Z := (2 ^ 63 - 1)%Z.

(** What the builtin [len] makes of the value [__len__] returned: it
    asks for an index (a float has none), which must fit [Py_ssize_t]
    and must not be negative. *)
Definition builtin_len (r : np_scalar) : outcome Z :=
  match r with
  | np_float64 _ =>
      Raise (TypeError "'numpy.float64' object cannot be interpreted as an integer")
  | np_int64 z | np_uint64 z | py_int z =>
      if ((sys_maxsize <? z) || (z <? - sys_maxsize - 1))%Z
      then Raise (OverflowError "cannot fit 'int' into an index-sized integer")
      else if (z <? 0)%Z then Raise (ValueError "__len__() should return >= 0")
      else Ok z
  end.

(** ** Private names *)

Fixpoint strip_underscores (s : string) : string :=
  match s with
  | String "_"%char s' => strip_underscores s'
  | _ => s
  end.

Definition ends_with_two_underscores (s : string) : bool :=
  match String.rev s with
  | String "_"%char (String "_"%char _) => true
  | _ => false
  end.

(** The name the compiler puts for [ident] where it occurs in the body
    of [class class_name]: an identifier that starts with two
    underscores, does not end with two and has no dot gets the class
    name, without its leading underscores, in front. *)
Definition mangle (class_name ident : string) : string :=
  if String.prefix "__" ident
     && negb (ends_with_two_underscores ident)
     && negb (bool_decide ("."%char ∈ String.list_ascii_of_string ident))
     && negb (bool_decide (strip_underscores class_name = ""))
  then "_" +:+ strip_underscores class_name +:+ ident
  else ident.

(** ** tensor.py *)

Section TensorPy.
Context {BE : Backend}.

(** *** Foreign calls, each one recorded *)

Definition log (ev : event) (w : world BE) : list event := trace w ++ [ev].

(** [factory.parameter(shape, dtype)] *)
Definition factory_parameter (f : NNFactory) (shp : list Z) (dt : NPUDtype) : M BE node_ref :=
  fun w =>
    let '(r, b) := be_parameter BE f shp dt (backend w) in
    (r, mkWorld b (log (EvParameter f shp dt) w) (heap w)).

(** [factory.__getattribute__(op)] called with the nodes, then the extra
    positional arguments, then the keyword arguments. *)
Definition factory_call (f : NNFactory) (op : string) (nodes : list node_ref)
    (args : list pyarg) (kwargs : list (string * pyarg)) : M BE node_ref :=
  fun w =>
    let '(r, b) := be_op BE f op nodes args kwargs (backend w) in
    (r, mkWorld b (log (EvOp f op nodes args kwargs) w) (heap w)).

(** [backend_lib.op_shape_size(node)] *)
Definition op_shape_size (n : node_ref) : M BE Z :=
  fun w => (Ok (be_op_shape_size BE n (backend w)),
            mkWorld (backend w) (log (EvShapeSize n) w) (heap w)).

(** [backend_lib.op_shape(node, i)] *)
Definition op_shape (n : node_ref) (i : Z) : M BE Z :=
  fun w => (Ok (be_op_shape BE n i (backend w)),
            mkWorld (backend w) (log (EvShape n i) w) (heap w)).

(** [backend_lib.op_dtype(node)] *)
Definition op_dtype (n : node_ref) : M BE Z :=
  fun w => (Ok (be_op_dtype BE n (backend w)),
            mkWorld (backend w) (log (EvDtype n) w) (heap w)).

(** *** Tensor objects *)

(** [Tensor(factory=f, node=n)]: a new object, never an existing one. *)
Definition new_Tensor (f : NNFactory) (n : node_ref) : M BE pyref :=
  fun w => (Ok (length (heap w)),
            mkWorld (backend w) (trace w) (heap w ++ [mkTensor f n])).

(** Attribute reads [t.factory] and [t.node]; an object that is not a
    [Tensor] has neither attribute. *)
Definition get_factory (t : pyref) : M BE NNFactory :=
  fun w =>
    match heap w !! t with
    | Some o => (Ok (factory o), w)
    | None => (Raise (AttributeError "object has no attribute 'factory'"), w)
    end.

Definition get_node (t : pyref) : M BE node_ref :=
  fun w =>
    match heap w !! t with
    | Some o => (Ok (node o), w)
    | None => (Raise (AttributeError "object has no attribute 'node'"), w)
    end.

(** *** The primitive *)

Definition __generate_op (tensors : list pyref) (op : string)
    (args : list pyarg) (kwargs : list (string * pyarg)) : M BE pyref :=
  factories <- for_each get_factory tensors ;;
  if negb (size (list_to_set factories : gset NNFactory) =? 1)%nat then
    raise (ValueError "All tensors must be from the same factory")
  else
    t0 <- lift (py_getitem "list" tensors 0) ;;
    factory <- get_factory t0 ;;
    nodes <- for_each get_node tensors ;;
    new_node <- factory_call factory op nodes args kwargs ;;
    new_Tensor factory new_node.

(** *** Construction and queries *)

Definition create_tensor (f : NNFactory) (shp : list Z) (dt : NPUDtype) : M BE pyref :=
  n <- factory_parameter f shp dt ;;
  new_Tensor f n.

Definition shape (self : pyref) : M BE (list Z) :=
  n <- get_node self ;;
  shape_size <- op_shape_size n ;;
  for_each (fun i => n' <- get_node self ;; op_shape n' i) (py_range shape_size).

Definition dtype (self : pyref) : M BE NPUDtype :=
  n <- get_node self ;;
  dtype_int <- op_dtype n ;;
  if (dtype_int =? 2)%Z then ret np_bool
  else if (dtype_int =? 3)%Z then ret bfloat16
  else if (dtype_int =? 4)%Z then ret float16
  else if (dtype_int =? 5)%Z then ret float32
  else if (dtype_int =? 6)%Z then ret float64
  else if (dtype_int =? 7)%Z then ret int4
  else if (dtype_int =? 8)%Z then ret int8
  else if (dtype_int =? 9)%Z then ret int16
  else if (dtype_int =? 10)%Z then ret int32
  else if (dtype_int =? 11)%Z then ret int64
  else raise (RuntimeError "Unsupported dtype").

(** *** Global names *)

(** The type of [__generate_op]. *)
Definition primitive : Type :=
  list pyref → string → list pyarg → list (string * pyarg) → M BE pyref.

(** Load of a global name that is then called like the primitive.  The
    module binds [__generate_op] to the function above; the name the
    methods are compiled to load, [_Tensor__generate_op], is bound
    neither by the module nor among the builtins, and the load of an
    unbound name raises NameError. *)
Definition load_global (ident : string) : M BE primitive :=
  if bool_decide (ident = "__generate_op") then ret __generate_op
  else raise (NameError ("name '" +:+ ident +:+ "' is not defined")).

(** *** Operators

    In a call the callee is evaluated first, then the arguments. *)

Definition __add__ (self other : pyref) : M BE pyref :=
  callee <- load_global (mangle "Tensor" "__generate_op") ;;
  callee [self; other] "eltwise_add" [] [].

Definition __neg__ (self : pyref) : M BE pyref :=
  callee <- load_global (mangle "Tensor" "__generate_op") ;;
  callee [self] "negative" [] [].

(** The argument list [[self, -other]] is built after the callee was
    loaded and before the call. *)
Definition __sub__ (self other : pyref) : M BE pyref :=
  callee <- load_global (mangle "Tensor" "__generate_op") ;;
  neg_other <- __neg__ other ;;
  callee [self; neg_other] "eltwise_add" [] [].

Definition __mul__ (self other : pyref) : M BE pyref :=
  callee <- load_global (mangle "Tensor" "__generate_op") ;;
  callee [self; other] "eltwise_mul" [] [].

Definition __truediv__ (self other : pyref) : M BE pyref :=
  callee <- load_global (mangle "Tensor" "__generate_op") ;;
  callee [self; other] "eltwise_div" [] [].

(** The method returns what [np.product] returns. *)
Definition __len__ (np_wide : list Z → np_scalar) (self : pyref) : M BE np_scalar :=
  shp <- shape self ;;
  ret (np_product np_wide shp).

(** [len(t)] on a tensor: the method, then the checks of the builtin. *)
Definition len (np_wide : list Z → np_scalar) (self : pyref) : M BE Z :=
  r <- __len__ np_wide self ;;
  lift (builtin_len r).

(** The tuple on the right of the swap is evaluated first, then the two
    targets are assigned from left to right. *)
Definition T (self : pyref) : M BE pyref :=
  shp <- shape self ;;
  let input_order := py_range (Z.of_nat (length shp)) in
  x <- lift (py_getitem "list" input_order (-2)) ;;
  y <- lift (py_getitem "list" input_order (-1)) ;;
  input_order1 <- lift (py_setitem input_order (-1) x) ;;
  input_order2 <- lift (py_setitem input_order1 (-2) y) ;;
  callee <- load_global (mangle "Tensor" "__generate_op") ;;
  callee [self] "transpose" [ArgList input_order2] [].

Definition squeeze (self : pyref) : M BE pyref :=
  callee <- load_global (mangle "Tensor" "__generate_op") ;;
  callee [self] "squeeze" [] [].

Definition unsqueeze (self : pyref) (axis : Z) : M BE pyref :=
  callee <- load_global (mangle "Tensor" "__generate_op") ;;
  callee [self] "unsqueeze" [ArgInt axis] [].

Definition __matmul__ (self other : pyref) : M BE pyref :=
  callee <- load_global (mangle "Tensor" "__generate_op") ;;
  callee [self; other] "matmul" [] [].

End TensorPy.

(** *** Text of a tensor *)

(** [str] of a list of integers, as an f-string renders it. *)
Definition repr_list (l : list Z) : string :=
  "[" +:+ String.concat ", " (pretty <$> l) +:+ "]".

Section TensorText.
Context {BE : Backend}.
(** [str] of a semantic type; the types are defined in the [dtypes]
    module. *)
Variable str_dtype : NPUDtype → string.

(** The two replacement fields of the f-string are evaluated from left
    to right: the shape, then the dtype. *)
Definition __repr__ (self : pyref) : M BE string :=
  shp <- shape self ;;
  dt <- dtype self ;;
  ret ("Tensor(" +:+ repr_list shp +:+ ", " +:+ str_dtype dt +:+ ")").

Definition __str__ (self : pyref) : M BE string :=
  shp <- shape self ;;
  dt <- dtype self ;;
  ret ("Tensor(" +:+ repr_list shp +:+ ", " +:+ str_dtype dt +:+ ")").

End TensorText.

(** ** ops.py *)

(** The [ctypes] scalar types that occur as parameter types. *)
Inductive ctype := c_float | c_bool.

(** [@dataclass(frozen=True) class SupportedOp] *)
Record SupportedOp := mkSupportedOp {
  name : string;
  inputs : Z;
  parameters : list ctype
}.

(** The list literal built by the body of [get_supported_ops]. *)
Definition supported_ops : list SupportedOp :=
  [ mkSupportedOp "matmul" 2 [];
    mkSupportedOp "eltwise_add" 2 [];
    mkSupportedOp "eltwise_mul" 2 [];
    mkSupportedOp "eltwise_div" 2 [];
    mkSupportedOp "abs_act" 1 [];
    mkSupportedOp "acos_act" 1 [];
    mkSupportedOp "asin_act" 1 [];
    mkSupportedOp "atan_act" 1 [];
    mkSupportedOp "ceiling" 1 [];
    mkSupportedOp "clamp" 1 [c_float; c_float];
    mkSupportedOp "cos_act" 1 [];
    mkSupportedOp "cosh_act" 1 [];
    mkSupportedOp "erf_act" 1 [];
    mkSupportedOp "elu" 1 [c_float];
    mkSupportedOp "exp_act" 1 [];
    mkSupportedOp "floor_act" 1 [];
    mkSupportedOp "grn" 1 [c_float];
    mkSupportedOp "gelu" 1 [];
    mkSupportedOp "log_act" 1 [];
    mkSupportedOp "negative" 1 [];
    mkSupportedOp "relu" 1 [];
    mkSupportedOp "sigmoid" 1 [];
    mkSupportedOp "sign" 1 [];
    mkSupportedOp "sin_act" 1 [];
    mkSupportedOp "sinh_act" 1 [];
    mkSupportedOp "sqrt_act" 1 [];
    mkSupportedOp "tan_act" 1 [];
    mkSupportedOp "tanh_act" 1 [];
    mkSupportedOp "acosh_act" 1 [];
    mkSupportedOp "asinh_act" 1 [];
    mkSupportedOp "atanh_act" 1 [];
    mkSupportedOp "hswish" 1 [];
    mkSupportedOp "mish" 1 [];
    mkSupportedOp "softplus" 1 [];
    mkSupportedOp "hsigmoid" 1 [];
    mkSupportedOp "round_act" 1 [];
    mkSupportedOp "softsign" 1 [];
    mkSupportedOp "softmax" 1 [];
    mkSupportedOp "swish" 1 [];
    mkSupportedOp "convert_to_fp16" 1 [];
    mkSupportedOp "scaled_dot_product_attention" 4 [c_bool] ].

(** The store of [@lru_cache(maxsize=None)] for a function without
    arguments: empty, or the result of the first call. *)
Definition lru_cache := option (list SupportedOp).

(** The decorated function: the body runs on a miss only, and what it
    returned is kept. *)
Definition get_supported_ops (cache : lru_cache) : list SupportedOp * lru_cache :=
  match cache with
  | Some hit => (hit, cache)
  | None => (supported_ops, Some supported_ops)
  end.

(** [n] calls in a row, starting from [cache]: the results in call
    order and the final store. *)
Fixpoint successive_calls (n : nat) (cache : lru_cache) : list (list SupportedOp) * lru_cache :=
  match n with
  | O => ([], cache)
  | S n' =>
      let '(r, cache') := get_supported_ops cache in
      let '(rs, cache'') := successive_calls n' cache' in
      (r :: rs, cache'')
  end.

(** First entry of a table with the given name. *)
Definition find_op (nm : string) (table : list SupportedOp) : option SupportedOp :=
  List.find (fun o => String.eqb (name o) nm) table.

(** ** qmatmul.py *)

Module QMatMul.

(** The attributes [__init__] stores on the instance. *)
Record t := mk { inC : Z; outC : Z; batch : Z }.

(** An [np.ndarray]: its [shape] tuple and an opaque payload. *)
Record ndarray := mk_ndarray { nd_shape : list Z; nd_data : nat }.

(** [repr] of a tuple of integers, as an f-string renders it. *)
Definition repr_tuple (l : list Z) : string :=
  match l with
  | [] => "()"
  | [x] => "(" +:+ pretty x +:+ ",)"
  | _ => "(" +:+ String.concat ", " (pretty <$> l) +:+ ")"
  end.

Definition obind {A B} (o : outcome A) (k : A → outcome B) : outcome B :=
  match o with
  | Ok a => k a
  | Raise e => Raise e
  end.

(** [a == x and b == y] on two subscripts of a shape tuple; the second
    subscript is evaluated only when the first comparison holds. *)
Definition shape_is (shp : list Z) (d0 d1 : Z) : outcome bool :=
  obind (py_getitem "tuple" shp 0) (fun s0 =>
  if (s0 =? d0)%Z then
    obind (py_getitem "tuple" shp 1) (fun s1 => Ok (s1 =? d1)%Z)
  else Ok false).

(** Condition of the first [if], the one whose message says "Input". *)
Definition input_condition (self : t) (X W scale : ndarray) : outcome bool :=
  shape_is (nd_shape X) (batch self) (inC self).

(** Condition of the second [if], the one whose message says "Weight". *)
Definition weight_condition (self : t) (X W scale : ndarray) : outcome bool :=
  shape_is (nd_shape X) (batch self) (inC self).

(** Condition of the third [if], the one whose message says "Scale". *)
Definition scale_condition (self : t) (X W scale : ndarray) : outcome bool :=
  shape_is (nd_shape X) (batch self) (inC self).

Definition input_message (self : t) (X W scale : ndarray) : string :=
  "Input shape " +:+ repr_tuple (nd_shape X) +:+ " different from expected one "
    +:+ repr_tuple [batch self; inC self].

Definition weight_message (self : t) (X W scale : ndarray) : string :=
  "Weight shape " +:+ repr_tuple (nd_shape W) +:+ " different from expected one "
    +:+ repr_tuple [outC self; inC self].

Definition scale_message (self : t) (X W scale : ndarray) : string :=
  "Scale shape " +:+ repr_tuple (nd_shape W) +:+ " different from expected one "
    +:+ repr_tuple [outC self; 1%Z].

Section Run.
(** [NNFactory.run], reached through [super()]. *)
Variable super_run : t → ndarray → ndarray * ndarray → outcome ndarray.

Definition run (self : t) (X W scale : ndarray) : outcome ndarray :=
  obind (input_condition self X W scale) (fun c1 =>
  if negb c1 then Raise (RuntimeError (input_message self X W scale)) else
  obind (weight_condition self X W scale) (fun c2 =>
  if negb c2 then Raise (RuntimeError (weight_message self X W scale)) else
  obind (scale_condition self X W scale) (fun c3 =>
  if negb c3 then Raise (RuntimeError (scale_message self X W scale)) else
  super_run self X (W, scale)))).

End Run.

End QMatMul.

(** ** A reference backend *)

Module RefBackend.

(** Modelled from the spec: a node of the backend graph, which the
    native library keeps behind the foreign boundary; the graph context
    that owns it, its shape and its integer type code. *)
Record gnode := mk_gnode { g_owner : NNFactory; g_shape : list Z; g_dtype : Z }.

(** Modelled from the spec: the backend-resident graphs, append-only;
    a node reference is a position in this list. *)
Abbreviation state := (list gnode).

(** Modelled from the spec: the backend's integer type tag of each
    semantic type (the dtype table read from right to left). *)
Definition dtype_code (d : NPUDtype) : Z :=
  match d with
  | np_bool => 2 | bfloat16 => 3 | float16 => 4 | float32 => 5 | float64 => 6
  | int4 => 7 | int8 => 8 | int16 => 9 | int32 => 10 | int64 => 11
  end%Z.

(** Modelled from the spec: [parameter(shape, dtype) -> node], which
    allocates a graph input node. *)
Definition parameter (f : NNFactory) (shp : list Z) (dt : NPUDtype) (st : state)
    : outcome node_ref * state :=
  (Ok (length st), st ++ [mk_gnode f shp (dtype_code dt)]).

(** Modelled from the spec: the shape a transposition by the axis
    permutation [perm] gives. *)
Definition permute (perm : list Z) (shp : list Z) : list Z :=
  (fun i => default 0%Z (shp !! Z.to_nat i)) <$> perm.

(** Modelled from the spec: shape and type code of the node an operation
    constructor returns, for the elementwise operations and the
    transposition; any other request is rejected. *)
Definition result_of (op : string) (ins : list gnode) (args : list pyarg)
    : option (list Z * Z) :=
  match ins, args with
  | [a], [] =>
      if bool_decide (op = "negative") then Some (g_shape a, g_dtype a) else None
  | [a; b], [] =>
      if bool_decide (op ∈ ["eltwise_add"; "eltwise_mul"; "eltwise_div"])
      then Some (g_shape a, g_dtype a) else None
  | [a], [ArgList perm] =>
      if bool_decide (op = "transpose") then Some (permute perm (g_shape a), g_dtype a)
      else None
  | _, _ => None
  end.

(** Modelled from the spec: dynamic operation dispatch, which returns a
    new node reference or fails. *)
Definition op (f : NNFactory) (nm : string) (nodes : list node_ref)
    (args : list pyarg) (kwargs : list (string * pyarg)) (st : state)
    : outcome node_ref * state :=
  match mapM (fun n => st !! n) nodes with
  | Some ins =>
      match result_of nm ins args with
      | Some (shp, code) => (Ok (length st), st ++ [mk_gnode f shp code])
      | None => (Raise (ForeignError "operation rejected by the backend"), st)
      end
  | None => (Raise (ForeignError "unknown node"), st)
  end.

(** Modelled from the spec: [shape_size(node) -> int], the rank. *)
Definition shape_size (n : node_ref) (st : state) : Z :=
  match st !! n with
  | Some g => Z.of_nat (length (g_shape g))
  | None => 0%Z
  end.

(** Modelled from the spec: [shape_dim(node, index) -> int], the extent
    of one axis. *)
Definition shape_dim (n : node_ref) (i : Z) (st : state) : Z :=
  match st !! n with
  | Some g => default 0%Z (g_shape g !! Z.to_nat i)
  | None => 0%Z
  end.

(** Modelled from the spec: [dtype_code(node) -> int]. *)
Definition dtype_of (n : node_ref) (st : state) : Z :=
  match st !! n with
  | Some g => g_dtype g
  | None => 0%Z
  end.

Definition backend : Backend :=
  mkBackend state parameter op shape_size shape_dim dtype_of.

(** A process that has made no call yet. *)
Definition initial : world backend := @mkWorld backend [] [] [].

End RefBackend.

(** ** Specification-side definitions *)

(** The dtype table as the specification prints it. *)
Definition dtype_table : gmap Z NPUDtype :=
  list_to_map
    [ (2, np_bool); (3, bfloat16); (4, float16); (5, float32); (6, float64);
      (7, int4); (8, int8); (9, int16); (10, int32); (11, int64) ]%Z.

(** The axis order of a transposition at rank [n]: every axis in place
    but the last two, which change places. *)
Definition swap_last_two (n : nat) : list Z :=
  Z.of_nat <$> (seq 0 (n - 2) ++ [n - 1; n - 2])%nat.

(** The foreign calls one read of [shape] makes on a node of rank [rank]. *)
Definition shape_events (n : node_ref) (rank : Z) : list event :=
  EvShapeSize n :: (EvShape n <$> py_range rank).

(** Every object that exists before the call is the same object
    afterwards, and a returned handle is an object that did not exist
    before. *)
Definition preserves_operands {BE} (c : M BE pyref) : Prop :=
  ∀ w : world BE,
    (∀ r o, heap w !! r = Some o → heap (c w).2 !! r = Some o) ∧
    (∀ h, (c w).1 = Ok h → heap w !! h = None ∧ is_Some (heap (c w).2 !! h)).

(** Modelled from the spec: the contract of the factory's [parameter]
    and of the rank and per-axis queries, which live behind the foreign
    boundary; a node allocated for a shape reports that shape. *)
Definition parameter_reports_shape (BE : Backend) : Prop :=
  ∀ f shp dt b n b',
    be_parameter BE f shp dt b = (Ok n, b') →
    be_op_shape_size BE n b' = Z.of_nat (length shp) ∧
    ∀ (i : nat) d, shp !! i = Some d → be_op_shape BE n (Z.of_nat i) b' = d.

(** The call never ends in a value. *)
Definition returns_nothing (BE : Backend) {A} (c : M BE A) : Prop :=
  ∀ (w : world BE) (a : A), (c w).1 ≠ Ok a.

(** What the name lookup of every operator method raises. *)
Definition unbound_primitive : exn :=
  NameError "name '_Tensor__generate_op' is not defined".

(** Two calls of the primitive in a row: "negative" on [b], then
    "eltwise_add" on [a] and the handle the first call returned. *)
Definition negate_then_add {BE} (a b : pyref) : M BE pyref :=
  negated <- __generate_op [b] "negative" [] [] ;;
  __generate_op [a; negated] "eltwise_add" [] [].

(** [tensors] are references to the objects [objs], in this order. *)
Definition refer_to {BE} (w : world BE) (tensors : list pyref) (objs : list Tensor) : Prop :=
  Forall2 (λ t o, heap w !! t = Some o) tensors objs.

(** The call allocates no object. *)
Definition keeps_heap (BE : Backend) {A} (c : M BE A) : Prop :=
  ∀ w : world BE, heap (c w).2 = heap w.

(** The call only appends objects, and a handle it returns is one of
    the appended objects. *)
Definition grows_heap (BE : Backend) (c : M BE pyref) : Prop :=
  ∀ w : world BE, ∃ new,
    heap (c w).2 = heap w ++ new ∧
    ∀ h, (c w).1 = Ok h → (length (heap w) ≤ h < length (heap w ++ new))%nat.

(** *** Example graphs on the reference backend *)

(** Two graph contexts with one input each: handle [0] belongs to
    factory [0] and handle [1] to factory [1]. *)
Definition two_graphs : world RefBackend.backend :=
  ((_ <- create_tensor 0 [2; 3]%Z float16 ;; create_tensor 1 [2; 3]%Z float16)
     RefBackend.initial).2.

(** One graph context with two inputs, handles [0] and [1]. *)
Definition one_graph : world RefBackend.backend :=
  ((_ <- create_tensor 0 [2; 3]%Z float16 ;; create_tensor 0 [2; 3]%Z float16)
     RefBackend.initial).2.

(** One graph context with a single input of the given shape, handle [0]. *)
Definition graph_of (shp : list Z) : world RefBackend.backend :=
  (create_tensor 0 shp float32 RefBackend.initial).2.

(** A store with a handle on node [7], which the backend does not
    know, and a handle on node [0], which it knows. *)
Definition stale_graph : world RefBackend.backend :=
  @mkWorld RefBackend.backend [RefBackend.mk_gnode 0 [2]%Z 4] []
    [mkTensor 0 7; mkTensor 0 0].

(** ** Facts about the primitive *)

Section TensorFacts.
Context {BE : Backend}.
Implicit Types (w : world BE) (t : pyref) (o : Tensor).

Lemma bind_ok {A B} (c : M BE A) (k : A → M BE B) w a w' :
  c w = (Ok a, w') → bind c k w = k a w'.
Proof. unfold bind. intros ->. reflexivity. Qed.

Lemma bind_raise {A B} (c : M BE A) (k : A → M BE B) w e w' :
  c w = (Raise e, w') → bind c k w = (Raise e, w').
Proof. unfold bind. intros ->. reflexivity. Qed.

Lemma get_factory_ok w t o : heap w !! t = Some o → get_factory t w = (Ok (factory o), w).
Proof. unfold get_factory. intros ->. reflexivity. Qed.

Lemma get_node_ok w t o : heap w !! t = Some o → get_node t w = (Ok (node o), w).
Proof. unfold get_node. intros ->. reflexivity. Qed.

Lemma for_each_get_factory w tensors objs :
  refer_to w tensors objs →
  for_each get_factory tensors w = (Ok (factory <$> objs), w).
Proof.
  induction 1 as [|t o ts os Ht _ IH]; [reflexivity|].
  cbn [for_each].
  rewrite (bind_ok _ _ _ _ _ (get_factory_ok _ _ _ Ht)).
  rewrite (bind_ok _ _ _ _ _ IH). reflexivity.
Qed.

Lemma for_each_get_node w tensors objs :
  refer_to w tensors objs →
  for_each get_node tensors w = (Ok (node <$> objs), w).
Proof.
  induction 1 as [|t o ts os Ht _ IH]; [reflexivity|].
  cbn [for_each].
  rewrite (bind_ok _ _ _ _ _ (get_node_ok _ _ _ Ht)).
  rewrite (bind_ok _ _ _ _ _ IH). reflexivity.
Qed.

Lemma one_factory (l : list NNFactory) f :
  l ≠ [] → Forall (λ x, x = f) l → size (list_to_set l : gset NNFactory) = 1%nat.
Proof.
  intros Hne Hall.
  assert (list_to_set l = ({[ f ]} : gset NNFactory)) as ->; [|apply size_singleton].
  apply set_eq. intros x. rewrite elem_of_list_to_set, elem_of_singleton.
  rewrite Forall_forall in Hall. split; [apply Hall|].
  intros ->. destruct l as [|y l]; [done|].
  rewrite (Hall y) by set_solver. set_solver.
Qed.

Lemma two_factories (l : list NNFactory) f g :
  f ∈ l → g ∈ l → f ≠ g → size (list_to_set l : gset NNFactory) ≠ 1%nat.
Proof.
  intros Hf Hg Hne Hsz.
  apply size_1_elem_of in Hsz as [x Hx].
  assert (f = x) as Hfx.
  { apply (elem_of_singleton (C := gset NNFactory)). rewrite <- Hx.
    apply elem_of_list_to_set, Hf. }
  assert (g = x) as Hgx.
  { apply (elem_of_singleton (C := gset NNFactory)). rewrite <- Hx.
    apply elem_of_list_to_set, Hg. }
  congruence.
Qed.

(** What [__generate_op] does on handles that share their factory. *)
Lemma generate_op_same_factory tensors objs f op args kwargs w :
  tensors ≠ [] →
  refer_to w tensors objs →
  Forall (λ o, factory o = f) objs →
  __generate_op tensors op args kwargs w =
    match be_op BE f op (node <$> objs) args kwargs (backend w) with
    | (Ok n, b) =>
        (Ok (length (heap w)),
         mkWorld b (trace w ++ [EvOp f op (node <$> objs) args kwargs])
                 (heap w ++ [mkTensor f n]))
    | (Raise e, b) =>
        (Raise e,
         mkWorld b (trace w ++ [EvOp f op (node <$> objs) args kwargs]) (heap w))
    end.
Proof.
  intros Hne Href Hsame.
  unfold __generate_op.
  rewrite (bind_ok _ _ _ _ _ (for_each_get_factory _ _ _ Href)).
  rewrite (one_factory (factory <$> objs) f).
  - cbn [Nat.eqb negb].
    pose proof (for_each_get_node _ _ _ Href) as Hnodes.
    destruct Href as [|t o ts os Ht Hts]; [done|].
    inversion Hsame as [|? ? Ho Hos]; subst.
    rewrite (bind_ok _ _ w t w) by reflexivity.
    rewrite (bind_ok _ _ _ _ _ (get_factory_ok _ _ _ Ht)).
    rewrite (bind_ok _ _ _ _ _ Hnodes).
    unfold bind, factory_call, new_Tensor, log.
    destruct (be_op BE (factory o) op (node <$> o :: os) args kwargs (backend w))
      as [[n|e] b]; reflexivity.
  - destruct Href; [done|]. discriminate.
  - apply Forall_fmap. exact Hsame.
Qed.

(** What [__generate_op] does when two of the handles have different
    factories: it raises and nothing else happens. *)
Lemma generate_op_two_factories tensors objs o1 o2 op args kwargs w :
  refer_to w tensors objs →
  o1 ∈ objs → o2 ∈ objs → factory o1 ≠ factory o2 →
  __generate_op tensors op args kwargs w =
    (Raise (ValueError "All tensors must be from the same factory"), w).
Proof.
  intros Href H1 H2 Hne.
  unfold __generate_op.
  rewrite (bind_ok _ _ _ _ _ (for_each_get_factory _ _ _ Href)).
  pose proof (two_factories (factory <$> objs) (factory o1) (factory o2)) as Hsz.
  destruct (size (list_to_set (factory <$> objs) : gset NNFactory) =? 1)%nat eqn:E.
  - apply Nat.eqb_eq in E. exfalso. apply Hsz; [| |exact Hne|exact E].
    + apply list_elem_of_fmap. eauto.
    + apply list_elem_of_fmap. eauto.
  - reflexivity.
Qed.

End TensorFacts.

(** ** Facts about Python sequences *)

Lemma py_index_neg (len : nat) (i : Z) :
  (i < 0)%Z → (0 ≤ Z.of_nat len + i)%Z →
  py_index len i = Some (Z.to_nat (Z.of_nat len + i)).
Proof.
  intros Hi Hlen. unfold py_index.
  destruct (Z.leb_spec 0 i); [lia|].
  destruct (Z.leb_spec 0 (Z.of_nat len + i)); [reflexivity|lia].
Qed.

Lemma py_index_neg_out (len : nat) (i : Z) :
  (i < 0)%Z → (Z.of_nat len + i < 0)%Z → py_index len i = None.
Proof.
  intros Hi Hlen. unfold py_index.
  destruct (Z.leb_spec 0 i); [lia|].
  destruct (Z.leb_spec 0 (Z.of_nat len + i)); [lia|reflexivity].
Qed.

Lemma py_range_of_nat (n : nat) : py_range (Z.of_nat n) = Z.of_nat <$> seq 0 n.
Proof. unfold py_range. rewrite Nat2Z.id. reflexivity. Qed.

Lemma py_range_length (z : Z) : length (py_range z) = Z.to_nat z.
Proof. unfold py_range. rewrite length_fmap, length_seq. reflexivity. Qed.

Lemma range_split (m : nat) :
  Z.of_nat <$> seq 0 (m + 2) = (Z.of_nat <$> seq 0 m) ++ [Z.of_nat m; Z.of_nat (m + 1)].
Proof.
  replace (m + 2)%nat with (m + (1 + 1))%nat by lia.
  rewrite seq_app, fmap_app. cbn. repeat f_equal; lia.
Qed.

(** The four subscript operations of the swap in [T], at rank [m + 2]. *)
Lemma swap_steps (m : nat) :
  let l := py_range (Z.of_nat (m + 2)) in
  let l1 := (Z.of_nat <$> seq 0 m) ++ [Z.of_nat m; Z.of_nat m] in
  py_getitem "list" l (-2) = Ok (Z.of_nat m) ∧
  py_getitem "list" l (-1) = Ok (Z.of_nat (m + 1)) ∧
  py_setitem l (-1) (Z.of_nat m) = Ok l1 ∧
  py_setitem l1 (-2) (Z.of_nat (m + 1)) = Ok (swap_last_two (m + 2)).
Proof.
  intros l l1.
  assert (length l = (m + 2)%nat) as Hlen.
  { unfold l. rewrite py_range_length. lia. }
  assert (length l1 = (m + 2)%nat) as Hlen1.
  { unfold l1. rewrite length_app, length_fmap, length_seq. cbn. lia. }
  assert (length (Z.of_nat <$> seq 0 m) = m) as Hpre.
  { rewrite length_fmap, length_seq. reflexivity. }
  assert (l = (Z.of_nat <$> seq 0 m) ++ [Z.of_nat m; Z.of_nat (m + 1)]) as Hl.
  { unfold l. rewrite py_range_of_nat. apply range_split. }
  repeat split.
  - unfold py_getitem. rewrite Hlen, py_index_neg by lia.
    replace (Z.to_nat (Z.of_nat (m + 2) + -2)) with (m + 0)%nat by lia.
    rewrite Hl, lookup_app_r by lia. rewrite Hpre.
    replace (m + 0 - m)%nat with 0%nat by lia. reflexivity.
  - unfold py_getitem. rewrite Hlen, py_index_neg by lia.
    replace (Z.to_nat (Z.of_nat (m + 2) + -1)) with (m + 1)%nat by lia.
    rewrite Hl, lookup_app_r by lia. rewrite Hpre.
    replace (m + 1 - m)%nat with 1%nat by lia. reflexivity.
  - unfold py_setitem. rewrite Hlen, py_index_neg by lia.
    replace (Z.to_nat (Z.of_nat (m + 2) + -1)) with (m + 1)%nat by lia.
    rewrite Hl, insert_app_r_alt by lia. rewrite Hpre.
    replace (m + 1 - m)%nat with 1%nat by lia. reflexivity.
  - unfold py_setitem. rewrite Hlen1, py_index_neg by lia.
    replace (Z.to_nat (Z.of_nat (m + 2) + -2)) with (m + 0)%nat by lia.
    unfold l1. rewrite insert_app_r_alt by lia. rewrite Hpre.
    replace (m + 0 - m)%nat with 0%nat by lia.
    unfold swap_last_two.
    replace (m + 2 - 2)%nat with m by lia.
    replace (m + 2 - 1)%nat with (m + 1)%nat by lia.
    rewrite fmap_app. reflexivity.
Qed.

(** Below rank two the first subscript of the swap is out of range. *)
Lemma swap_fails (n : nat) :
  (n < 2)%nat →
  py_getitem "list" (py_range (Z.of_nat n)) (-2) = Raise (IndexError "list index out of range").
Proof.
  intros Hn. unfold py_getitem.
  rewrite py_range_length, Nat2Z.id, py_index_neg_out by lia. reflexivity.
Qed.

(** The order [T] passes on is the identity away from the last two
    positions, which hold each other's index. *)
Lemma swap_last_two_lookup (n i : nat) :
  (2 ≤ n)%nat →
  swap_last_two n !! i =
    if decide (i < n - 2)%nat then Some (Z.of_nat i)
    else if decide (i = n - 2)%nat then Some (Z.of_nat (n - 1))
    else if decide (i = n - 1)%nat then Some (Z.of_nat (n - 2))
    else None.
Proof.
  intros Hn. unfold swap_last_two. rewrite list_lookup_fmap.
  repeat case_decide.
  - rewrite lookup_app_l by (rewrite length_seq; lia).
    rewrite lookup_seq_lt by lia. reflexivity.
  - rewrite lookup_app_r by (rewrite length_seq; lia).
    rewrite length_seq. replace (i - (n - 2))%nat with 0%nat by lia. reflexivity.
  - rewrite lookup_app_r by (rewrite length_seq; lia).
    rewrite length_seq. replace (i - (n - 2))%nat with 1%nat by lia. reflexivity.
  - rewrite lookup_app_r by (rewrite length_seq; lia).
    rewrite length_seq.
    destruct (i - (n - 2))%nat as [|[|k]] eqn:E; [lia|lia|reflexivity].
Qed.

(** ** Facts about the queries and the operators *)

Section OperatorFacts.
Context {BE : Backend}.
Implicit Types (w : world BE) (o : Tensor).

Lemma for_each_op_shape self o (l : list Z) b tr h :
  h !! self = Some o →
  for_each (λ i, n' <- get_node self ;; op_shape n' i) l (@mkWorld BE b tr h) =
    (Ok ((λ i, be_op_shape BE (node o) i b) <$> l),
     mkWorld b (tr ++ (EvShape (node o) <$> l)) h).
Proof.
  intros Hself. revert tr.
  induction l as [|i l IH]; intros tr.
  - cbn. rewrite app_nil_r. reflexivity.
  - cbn [for_each].
    rewrite (bind_ok _ _ _ (be_op_shape BE (node o) i b)
               (mkWorld b (tr ++ [EvShape (node o) i]) h)).
    + rewrite (bind_ok _ _ _ _ _ (IH _)). cbn. rewrite <- app_assoc. reflexivity.
    + rewrite (bind_ok _ _ _ (node o) (mkWorld b tr h)); [reflexivity|].
      apply get_node_ok. exact Hself.
Qed.

(** One read of [shape]: the rank query, then one query per axis. *)
Lemma shape_reads self o w :
  heap w !! self = Some o →
  shape self w =
    (Ok ((λ i, be_op_shape BE (node o) i (backend w))
           <$> py_range (be_op_shape_size BE (node o) (backend w))),
     mkWorld (backend w)
             (trace w ++ shape_events (node o) (be_op_shape_size BE (node o) (backend w)))
             (heap w)).
Proof.
  intros Hself. unfold shape.
  rewrite (bind_ok _ _ _ _ _ (get_node_ok _ _ _ Hself)).
  rewrite (bind_ok _ _ w (be_op_shape_size BE (node o) (backend w))
             (mkWorld (backend w) (trace w ++ [EvShapeSize (node o)]) (heap w)))
    by reflexivity.
  rewrite (for_each_op_shape self o) by exact Hself.
  unfold shape_events. rewrite <- app_assoc. reflexivity.
Qed.

(** [__len__] hands on what [np.product] makes of the shape read. *)
Lemma len_of_shape np_wide self w shp w' :
  shape self w = (Ok shp, w') →
  __len__ np_wide self w = (Ok (np_product np_wide shp), w').
Proof. intros H. unfold __len__. rewrite (bind_ok _ _ _ _ _ H). reflexivity. Qed.

(** The name every operator method looks up is not bound. *)
Lemma load_mangled w :
  load_global (mangle "Tensor" "__generate_op") w = (Raise unbound_primitive, w).
Proof. reflexivity. Qed.

(** [T] at rank two or more: the shape is read and the swap is done,
    then the lookup of the callee fails. *)
Lemma T_high_rank self o w :
  heap w !! self = Some o →
  (2 ≤ be_op_shape_size BE (node o) (backend w))%Z →
  T self w =
    (Raise unbound_primitive,
     mkWorld (backend w)
             (trace w ++ shape_events (node o) (be_op_shape_size BE (node o) (backend w)))
             (heap w)).
Proof.
  intros Hself Hrank. unfold T.
  rewrite (bind_ok _ _ _ _ _ (shape_reads _ _ _ Hself)).
  rewrite length_fmap, py_range_length.
  set (rank := be_op_shape_size BE (node o) (backend w)) in *.
  destruct (swap_steps (Z.to_nat rank - 2)) as (Hx & Hy & Hs1 & Hs2).
  replace (Z.to_nat rank - 2 + 2)%nat with (Z.to_nat rank) in * by lia.
  set (w1 := mkWorld (backend w) (trace w ++ shape_events (node o) rank) (heap w)).
  rewrite (bind_ok _ _ w1 _ w1) by (unfold lift; rewrite Hx; reflexivity).
  rewrite (bind_ok _ _ w1 _ w1) by (unfold lift; rewrite Hy; reflexivity).
  rewrite (bind_ok _ _ w1 _ w1) by (unfold lift; rewrite Hs1; reflexivity).
  rewrite (bind_ok _ _ w1 _ w1) by (unfold lift; rewrite Hs2; reflexivity).
  apply bind_raise. apply load_mangled.
Qed.

(** [T] below rank two: the swap fails after the shape was read, and no
    operation is dispatched. *)
Lemma T_low_rank self o w :
  heap w !! self = Some o →
  (be_op_shape_size BE (node o) (backend w) < 2)%Z →
  T self w =
    (Raise (IndexError "list index out of range"),
     mkWorld (backend w)
             (trace w ++ shape_events (node o) (be_op_shape_size BE (node o) (backend w)))
             (heap w)).
Proof.
  intros Hself Hrank. unfold T.
  rewrite (bind_ok _ _ _ _ _ (shape_reads _ _ _ Hself)).
  rewrite length_fmap, py_range_length.
  apply bind_raise. unfold lift. rewrite swap_fails by lia. reflexivity.
Qed.

(** Negation then addition through the primitive, on handles of one
    factory. *)
Lemma negate_then_add_same_factory a b oa ob w :
  heap w !! a = Some oa → heap w !! b = Some ob → factory oa = factory ob →
  let f := factory oa in
  let neg := EvOp f "negative" [node ob] [] [] in
  negate_then_add a b w =
    match be_op BE f "negative" [node ob] [] [] (backend w) with
    | (Raise e, b1) => (Raise e, mkWorld b1 (trace w ++ [neg]) (heap w))
    | (Ok n1, b1) =>
        let add := EvOp f "eltwise_add" [node oa; n1] [] [] in
        match be_op BE f "eltwise_add" [node oa; n1] [] [] b1 with
        | (Raise e, b2) =>
            (Raise e, mkWorld b2 (trace w ++ [neg; add]) (heap w ++ [mkTensor f n1]))
        | (Ok n2, b2) =>
            (Ok (S (length (heap w))),
             mkWorld b2 (trace w ++ [neg; add])
                     (heap w ++ [mkTensor f n1; mkTensor f n2]))
        end
    end.
Proof.
  intros Ha Hb Hf f neg. subst neg. unfold negate_then_add.
  pose proof (generate_op_same_factory [b] [ob] f "negative" [] [] w) as Hneg.
  cbn [fmap list_fmap] in Hneg.
  destruct (be_op BE f "negative" [node ob] [] [] (backend w)) as [[n1|e] b1].
  - rewrite (bind_ok _ _ _ _ _ (Hneg ltac:(discriminate)
               ltac:(constructor; [exact Hb|constructor])
               ltac:(constructor; [symmetry; exact Hf|constructor]))).
    set (w1 := mkWorld b1 _ (heap w ++ [mkTensor f n1])).
    etrans.
    { apply (generate_op_same_factory [a; length (heap w)]
               [oa; mkTensor f n1] f "eltwise_add" [] [] w1).
      - discriminate.
      - constructor; [|constructor; [|constructor]]; unfold w1; cbn [heap].
        + apply lookup_app_l_Some. exact Ha.
        + rewrite lookup_app_r by lia. rewrite Nat.sub_diag. reflexivity.
      - repeat constructor. }
    cbn [fmap list_fmap node]. unfold w1. cbn [backend trace heap].
    destruct (be_op BE f "eltwise_add" [node oa; n1] [] [] b1) as [[n2|e] b2];
      rewrite <- !app_assoc; cbn [app]; [rewrite length_app, Nat.add_1_r|];
      reflexivity.
  - apply bind_raise.
    apply (Hneg ltac:(discriminate)
             ltac:(constructor; [exact Hb|constructor])
             ltac:(constructor; [symmetry; exact Hf|constructor])).
Qed.

(** Negation then addition through the primitive, across two
    factories: the first call passes its own check and is dispatched
    before the second call sees both handles. *)
Lemma negate_then_add_two_factories a b oa ob w :
  heap w !! a = Some oa → heap w !! b = Some ob → factory oa ≠ factory ob →
  let f := factory ob in
  let neg := EvOp f "negative" [node ob] [] [] in
  negate_then_add a b w =
    match be_op BE f "negative" [node ob] [] [] (backend w) with
    | (Raise e, b1) => (Raise e, mkWorld b1 (trace w ++ [neg]) (heap w))
    | (Ok n1, b1) =>
        (Raise (ValueError "All tensors must be from the same factory"),
         mkWorld b1 (trace w ++ [neg]) (heap w ++ [mkTensor f n1]))
    end.
Proof.
  intros Ha Hb Hf f neg. subst neg. unfold negate_then_add.
  pose proof (generate_op_same_factory [b] [ob] f "negative" [] [] w) as Hneg.
  cbn [fmap list_fmap] in Hneg.
  destruct (be_op BE f "negative" [node ob] [] [] (backend w)) as [[n1|e] b1].
  - rewrite (bind_ok _ _ _ _ _ (Hneg ltac:(discriminate)
               ltac:(constructor; [exact Hb|constructor])
               ltac:(constructor; [reflexivity|constructor]))).
    set (w1 := mkWorld b1 _ (heap w ++ [mkTensor f n1])).
    apply (generate_op_two_factories [a; length (heap w)]
             [oa; mkTensor f n1] oa (mkTensor f n1)).
    + constructor; [|constructor; [|constructor]]; unfold w1; cbn [heap].
      * apply lookup_app_l_Some. exact Ha.
      * rewrite lookup_app_r by lia. rewrite Nat.sub_diag. reflexivity.
    + set_solver.
    + set_solver.
    + exact Hf.
  - apply bind_raise.
    apply (Hneg ltac:(discriminate)
             ltac:(constructor; [exact Hb|constructor])
             ltac:(constructor; [reflexivity|constructor])).
Qed.

End OperatorFacts.

(** ** The object store across a call *)

Section Frame.
Context {BE : Backend}.

Lemma keeps_ret {A} (a : A) : keeps_heap BE (ret a).
Proof. intros w. reflexivity. Qed.

Lemma keeps_raise {A} e : keeps_heap BE (@raise BE A e).
Proof. intros w. reflexivity. Qed.

Lemma keeps_lift {A} (x : outcome A) : keeps_heap BE (@lift BE A x).
Proof. intros w. reflexivity. Qed.

Lemma keeps_get_factory t : keeps_heap BE (get_factory t).
Proof. intros w. unfold get_factory. destruct (heap w !! t); reflexivity. Qed.

Lemma keeps_get_node t : keeps_heap BE (get_node t).
Proof. intros w. unfold get_node. destruct (heap w !! t); reflexivity. Qed.

Lemma keeps_op_shape_size n : keeps_heap BE (op_shape_size n).
Proof. intros w. reflexivity. Qed.

Lemma keeps_op_shape n i : keeps_heap BE (op_shape n i).
Proof. intros w. reflexivity. Qed.

Lemma keeps_factory_call f op nodes args kwargs :
  keeps_heap BE (factory_call f op nodes args kwargs).
Proof.
  intros w. unfold factory_call.
  destruct (be_op BE f op nodes args kwargs (backend w)). reflexivity.
Qed.

Lemma keeps_bind {A B} (c : M BE A) (k : A → M BE B) :
  keeps_heap BE c → (∀ a, keeps_heap BE (k a)) → keeps_heap BE (bind c k).
Proof.
  intros Hc Hk w. unfold bind. specialize (Hc w).
  destruct (c w) as [[a|e] w1]; cbn in *; [|exact Hc].
  rewrite Hk. exact Hc.
Qed.

Lemma keeps_for_each {A B} (f : A → M BE B) (l : list A) :
  (∀ a, keeps_heap BE (f a)) → keeps_heap BE (for_each f l).
Proof.
  intros Hf. induction l as [|a l IH]; cbn [for_each].
  - apply keeps_ret.
  - apply keeps_bind; [apply Hf|]. intros b.
    apply keeps_bind; [exact IH|]. intros bs. apply keeps_ret.
Qed.

Lemma keeps_shape self : keeps_heap BE (shape self).
Proof.
  unfold shape. apply keeps_bind; [apply keeps_get_node|]. intros n.
  apply keeps_bind; [apply keeps_op_shape_size|]. intros sz.
  apply keeps_for_each. intros i.
  apply keeps_bind; [apply keeps_get_node|]. intros n'. apply keeps_op_shape.
Qed.

Lemma grows_raise e : grows_heap BE (raise e).
Proof.
  intros w. exists []. cbn. rewrite app_nil_r. split; [reflexivity|]. discriminate.
Qed.

Lemma grows_new_Tensor f n : grows_heap BE (new_Tensor f n).
Proof.
  intros w. exists [mkTensor f n]. cbn. split; [reflexivity|].
  intros h [= <-]. rewrite length_app. cbn. lia.
Qed.

Lemma grows_after_keeps {A} (c : M BE A) (k : A → M BE pyref) :
  keeps_heap BE c → (∀ a, grows_heap BE (k a)) → grows_heap BE (bind c k).
Proof.
  intros Hc Hk w. unfold bind. specialize (Hc w).
  destruct (c w) as [[a|e] w1]; cbn in *.
  - destruct (Hk a w1) as (new & Hheap & Hres). exists new.
    rewrite <- Hc. split; [exact Hheap|exact Hres].
  - exists []. rewrite app_nil_r. split; [exact Hc|]. discriminate.
Qed.

Lemma grows_after_grows (c : M BE pyref) (k : pyref → M BE pyref) :
  grows_heap BE c → (∀ a, grows_heap BE (k a)) → grows_heap BE (bind c k).
Proof.
  intros Hc Hk w. unfold bind. destruct (Hc w) as (new1 & Hheap1 & _).
  destruct (c w) as [[a|e] w1]; cbn in *.
  - destruct (Hk a w1) as (new2 & Hheap2 & Hres). exists (new1 ++ new2).
    rewrite Hheap2, Hheap1, app_assoc. split; [reflexivity|].
    intros h Hh. specialize (Hres h Hh).
    rewrite Hheap1 in Hres. rewrite !length_app in *. lia.
  - exists new1. split; [exact Hheap1|]. discriminate.
Qed.

Lemma grows_generate_op tensors op args kwargs :
  grows_heap BE (__generate_op tensors op args kwargs).
Proof.
  unfold __generate_op.
  apply grows_after_keeps; [apply keeps_for_each, keeps_get_factory|].
  intros factories.
  destruct (negb _); [apply grows_raise|].
  apply grows_after_keeps; [apply keeps_lift|]. intros t0.
  apply grows_after_keeps; [apply keeps_get_factory|]. intros f.
  apply grows_after_keeps; [apply keeps_for_each, keeps_get_node|]. intros nodes.
  apply grows_after_keeps; [apply keeps_factory_call|]. intros n.
  apply grows_new_Tensor.
Qed.

Lemma keeps_load_global ident : keeps_heap BE (load_global ident).
Proof. intros w. unfold load_global. case_bool_decide; reflexivity. Qed.

Lemma nothing_after {A B} (c : M BE A) (k : A → M BE B) :
  (∀ a, returns_nothing BE (k a)) → returns_nothing BE (bind c k).
Proof.
  intros Hk w b. unfold bind.
  destruct (c w) as [[a|e] w1]; [apply Hk|discriminate].
Qed.

(** A method that starts by loading its callee stops there. *)
Lemma stops_at_load (k : primitive → M BE pyref) w :
  (callee <- load_global (mangle "Tensor" "__generate_op") ;; k callee) w
  = (Raise unbound_primitive, w).
Proof. apply bind_raise, load_mangled. Qed.

Lemma T_keeps_heap self : keeps_heap BE (T self).
Proof.
  unfold T. apply keeps_bind; [apply keeps_shape|]. intros shp.
  do 4 (apply keeps_bind; [apply keeps_lift|]; intros ?).
  intros w. rewrite stops_at_load. reflexivity.
Qed.

Lemma T_returns_nothing self : returns_nothing BE (T self).
Proof.
  unfold T. do 5 (apply nothing_after; intros ?).
  intros w h. rewrite stops_at_load. discriminate.
Qed.

Lemma grows_preserves (c : M BE pyref) : grows_heap BE c → preserves_operands c.
Proof.
  intros Hc w. destruct (Hc w) as (new & Hheap & Hres). split.
  - intros r o Hr. rewrite Hheap. apply lookup_app_l_Some. exact Hr.
  - intros h Hh. specialize (Hres h Hh). split.
    + apply lookup_ge_None. lia.
    + rewrite Hheap. apply lookup_lt_is_Some. lia.
Qed.

End Frame.

(** ** The reference backend meets the contract *)

Lemma ref_backend_reports_shape : parameter_reports_shape RefBackend.backend.
Proof.
  intros f shp dt b n b' Hpar.
  cbn [be_parameter be_op_shape_size be_op_shape RefBackend.backend bstate] in *.
  unfold RefBackend.parameter in Hpar. injection Hpar as <- <-.
  unfold RefBackend.shape_size, RefBackend.shape_dim.
  rewrite lookup_app_r by reflexivity. rewrite Nat.sub_diag.
  cbn [lookup list_lookup RefBackend.g_shape].
  split; [reflexivity|].
  intros i d Hi. rewrite Nat2Z.id, Hi. reflexivity.
Qed.

(** ** The claims *)

(** The methods whose body is one call of the primitive stop at the
    lookup of their callee, whatever the operands. *)
Lemma methods_stop_at_load {BE : Backend} (a b : pyref) (axis : Z) (w : world BE) :
  let stopped := (Raise unbound_primitive, w) in
  __add__ a b w = stopped ∧ __sub__ a b w = stopped ∧ __mul__ a b w = stopped ∧
  __truediv__ a b w = stopped ∧ __matmul__ a b w = stopped ∧
  __neg__ a w = stopped ∧ squeeze a w = stopped ∧ unsqueeze a axis w = stopped.
Proof. repeat apply conj; apply stops_at_load. Qed.

(** C1. The claim fails on the code: on handles of two factories every
    binary operator raises NameError, not the ownership error, because
    the name the method looks up is the private form of
    [__generate_op], which nothing binds.  No foreign call is made.
    Here the operators are run on handle [0] of factory [0] and handle
    [1] of factory [1]. *)
Theorem C1_operators_raise_NameError_across_factories :
  heap two_graphs !! 0%nat = Some (mkTensor 0 0) ∧
  heap two_graphs !! 1%nat = Some (mkTensor 1 1) ∧
  __add__ 0 1 two_graphs = (Raise unbound_primitive, two_graphs) ∧
  __sub__ 0 1 two_graphs = (Raise unbound_primitive, two_graphs) ∧
  __mul__ 0 1 two_graphs = (Raise unbound_primitive, two_graphs) ∧
  __truediv__ 0 1 two_graphs = (Raise unbound_primitive, two_graphs) ∧
  __matmul__ 0 1 two_graphs = (Raise unbound_primitive, two_graphs) ∧
  unbound_primitive ≠ ValueError "All tensors must be from the same factory".
Proof. repeat apply conj; try reflexivity. discriminate. Qed.

(** C2. The claim fails on the code: on two handles of one factory
    [a - b] raises NameError at the lookup of its callee, before [-b]
    is evaluated; so does [a + (-b)], at the lookup inside the
    negation.  Neither dispatches "negative" or "eltwise_add", and no
    node and no handle is allocated. *)
Theorem C2_sub_raises_NameError_allocates_nothing :
  heap one_graph !! 0%nat = Some (mkTensor 0 0) ∧
  heap one_graph !! 1%nat = Some (mkTensor 0 1) ∧
  __sub__ 0 1 one_graph = (Raise unbound_primitive, one_graph) ∧
  (negated <- __neg__ 1 ;; __add__ 0 negated) one_graph
    = (Raise unbound_primitive, one_graph).
Proof. repeat apply conj; reflexivity. Qed.

Lemma dtype_table_lookup (c : Z) :
  dtype_table !! c =
    if (c =? 2)%Z then Some np_bool
    else if (c =? 3)%Z then Some bfloat16
    else if (c =? 4)%Z then Some float16
    else if (c =? 5)%Z then Some float32
    else if (c =? 6)%Z then Some float64
    else if (c =? 7)%Z then Some int4
    else if (c =? 8)%Z then Some int8
    else if (c =? 9)%Z then Some int16
    else if (c =? 10)%Z then Some int32
    else if (c =? 11)%Z then Some int64
    else None.
Proof.
  unfold dtype_table. cbn [list_to_map foldr fst snd uncurry].
  repeat (rewrite lookup_insert; case_decide;
          [subst c; reflexivity|];
          match goal with
          | |- context [(c =? ?k)%Z] => destruct (Z.eqb_spec c k); [congruence|]
          end).
  apply lookup_empty.
Qed.

Lemma dtype_table_domain (c : Z) :
  dtype_table !! c = None ↔ (c < 2 ∨ 11 < c)%Z.
Proof.
  rewrite dtype_table_lookup.
  repeat match goal with
         | |- context [(c =? ?k)%Z] => destruct (Z.eqb_spec c k); [split; [discriminate|lia]|]
         end.
  split; [lia|reflexivity].
Qed.

(** C3. The dtype query reads the integer code of the node once and
    maps it through the table 2..11; a code outside the table, 0 and 1
    included, makes it raise "Unsupported dtype". *)
Theorem C3_dtype_closed_table {BE : Backend} self o (w : world BE) :
  heap w !! self = Some o →
  (dtype self w).1 =
    match dtype_table !! be_op_dtype BE (node o) (backend w) with
    | Some d => Ok d
    | None => Raise (RuntimeError "Unsupported dtype")
    end ∧
  (∀ c : Z, dtype_table !! c = None ↔ (c < 2 ∨ 11 < c)%Z) ∧
  trace (dtype self w).2 = trace w ++ [EvDtype (node o)].
Proof.
  intros Hself. unfold dtype.
  rewrite (bind_ok _ _ _ _ _ (get_node_ok _ _ _ Hself)).
  rewrite (bind_ok _ _ w (be_op_dtype BE (node o) (backend w))
             (mkWorld (backend w) (trace w ++ [EvDtype (node o)]) (heap w)))
    by reflexivity.
  rewrite dtype_table_lookup.
  split; [|split; [exact dtype_table_domain|]];
    repeat match goal with
           | |- context [(?c =? ?k)%Z] => destruct (c =? k)%Z; [reflexivity|]
           end; reflexivity.
Qed.

Lemma C3_dtype_closed_table_witness :
  (dtype 0 (graph_of [2; 3]%Z)).1 = Ok float32 ∧
  dtype_table !! 1%Z = None ∧
  trace (dtype 0 (graph_of [2; 3]%Z)).2 = trace (graph_of [2; 3]%Z) ++ [EvDtype 0%nat].
Proof.
  destruct (C3_dtype_closed_table (BE := RefBackend.backend) 0 (mkTensor 0 0)
              (graph_of [2; 3]%Z) eq_refl) as (Hd & Hdom & Htr).
  split; [exact Hd|split; [|exact Htr]].
  apply Hdom. left. reflexivity.
Defined.

(** C4. The claim fails on the code: on a tensor of shape (2,3,4,5),
    [T] reads the shape, swaps the last two positions of the order,
    and then raises NameError at the lookup of its callee; no
    "transpose" is dispatched and no handle is returned.  The order it
    had computed is the one the claim names, [0, 1, 3, 2]. *)
Theorem C4_T_raises_NameError_after_the_swap :
  T 0 (graph_of [2; 3; 4; 5]%Z) =
    (Raise unbound_primitive,
     @mkWorld RefBackend.backend
       (backend (graph_of [2; 3; 4; 5]%Z))
       (trace (graph_of [2; 3; 4; 5]%Z)
          ++ [EvShapeSize 0; EvShape 0 0; EvShape 0 1; EvShape 0 2; EvShape 0 3])
       (heap (graph_of [2; 3; 4; 5]%Z))) ∧
  py_range 4 = [0; 1; 2; 3]%Z ∧
  py_getitem "list" [0; 1; 2; 3]%Z (-2) = Ok 2%Z ∧
  py_getitem "list" [0; 1; 2; 3]%Z (-1) = Ok 3%Z ∧
  py_setitem [0; 1; 2; 3]%Z (-1) 2%Z = Ok [0; 1; 2; 2]%Z ∧
  py_setitem [0; 1; 2; 2]%Z (-2) 3%Z = Ok [0; 1; 3; 2]%Z.
Proof. repeat apply conj; reflexivity. Qed.

(** C5. The claim holds for shape (4,5), where [len] is 20, and fails
    on the code at rank 0: [np.product] of the empty shape is the
    float 1.0, which [__len__] returns as it is, and the builtin [len]
    raises TypeError on it. *)
Theorem C5_len_of_rank_zero_raises_TypeError (np_wide : list Z → np_scalar) :
  (shape 0 (graph_of [4; 5]%Z)).1 = Ok [4; 5]%Z ∧
  (__len__ np_wide 0 (graph_of [4; 5]%Z)).1 = Ok (np_int64 20) ∧
  (len np_wide 0 (graph_of [4; 5]%Z)).1 = Ok 20%Z ∧
  (shape 0 (graph_of [])).1 = Ok [] ∧
  (__len__ np_wide 0 (graph_of [])).1 = Ok (np_float64 (QArith_base.Qmake 1 1)) ∧
  (len np_wide 0 (graph_of [])).1 =
    Raise (TypeError "'numpy.float64' object cannot be interpreted as an integer").
Proof. repeat apply conj; reflexivity. Qed.

Lemma successive_calls_hit (n : nat) (table : list SupportedOp) :
  successive_calls n (Some table) = (replicate n table, Some table).
Proof.
  induction n as [|n IH]; [reflexivity|].
  cbn [successive_calls get_supported_ops]. rewrite IH. reflexivity.
Qed.

(** C6. [get_supported_ops] only reads and fills its own cache; from
    an empty cache every call in a row returns the same table, entry
    for entry and in the same order, and only the first call runs the
    body.  The table has one entry named "matmul", with two inputs, and
    one entry named "clamp", with one input and two float parameters. *)
Theorem C6_get_supported_ops_memoized :
  (∀ n : nat,
     successive_calls n None =
       (replicate n supported_ops, if n is O then None else Some supported_ops)) ∧
  (let '(first, cache) := get_supported_ops None in
   let '(second, cache') := get_supported_ops cache in
   first = second ∧ cache = Some first ∧ cache' = cache) ∧
  NoDup (name <$> supported_ops) ∧
  find_op "matmul" supported_ops = Some (mkSupportedOp "matmul" 2 []) ∧
  find_op "clamp" supported_ops = Some (mkSupportedOp "clamp" 1 [c_float; c_float]).
Proof.
  split; [|split; [|split; [|split]]].
  - intros [|n]; [reflexivity|].
    cbn [successive_calls get_supported_ops].
    rewrite successive_calls_hit. reflexivity.
  - cbn. done.
  - apply (bool_decide_unpack (NoDup (name <$> supported_ops))).
    vm_compute. exact I.
  - reflexivity.
  - reflexivity.
Qed.

Lemma read_back (g : Z → Z) (shp : list Z) :
  (∀ (i : nat) d, shp !! i = Some d → g (Z.of_nat i) = d) →
  g <$> py_range (Z.of_nat (length shp)) = shp.
Proof.
  intros Hg. rewrite py_range_of_nat. apply list_eq. intros i.
  rewrite !list_lookup_fmap.
  destruct (shp !! i) as [d|] eqn:E.
  - rewrite lookup_seq_lt by (apply lookup_lt_Some in E; exact E).
    cbn. f_equal. apply Hg. exact E.
  - rewrite lookup_seq_ge by (apply lookup_ge_None in E; exact E). reflexivity.
Qed.

(** C7. When the backend honours the contract of [parameter] and of the
    rank and per-axis queries, a shape and dtype that [parameter]
    accepts give a tensor whose [shape] reads back the requested
    shape. *)
Theorem C7_create_tensor_shape_round_trip {BE : Backend} :
  parameter_reports_shape BE →
  ∀ f shp dt (w : world BE) n b',
    be_parameter BE f shp dt (backend w) = (Ok n, b') →
    ∃ t w1,
      create_tensor f shp dt w = (Ok t, w1) ∧
      heap w1 !! t = Some (mkTensor f n) ∧
      (shape t w1).1 = Ok shp.
Proof.
  intros Hcontract f shp dt w n b' Hpar.
  exists (length (heap w)),
    (mkWorld b' (trace w ++ [EvParameter f shp dt]) (heap w ++ [mkTensor f n])).
  assert ((heap w ++ [mkTensor f n]) !! length (heap w) = Some (mkTensor f n)) as Hnew.
  { rewrite lookup_app_r by reflexivity. rewrite Nat.sub_diag. reflexivity. }
  split; [|split; [exact Hnew|]].
  - unfold create_tensor, bind, factory_parameter, new_Tensor, log.
    rewrite Hpar. reflexivity.
  - rewrite (shape_reads _ (mkTensor f n)) by exact Hnew.
    cbn [fst backend node].
    destruct (Hcontract f shp dt (backend w) n b' Hpar) as [Hrank Hdim].
    rewrite Hrank. f_equal. apply read_back. exact Hdim.
Qed.

Lemma C7_create_tensor_shape_round_trip_witness :
  ∃ t w1,
    create_tensor 0 [2; 3; 4]%Z int8 RefBackend.initial = (Ok t, w1) ∧
    heap w1 !! t = Some (mkTensor 0 0) ∧
    (shape t w1).1 = Ok [2; 3; 4]%Z.
Proof.
  exact (C7_create_tensor_shape_round_trip (BE := RefBackend.backend)
           ref_backend_reports_shape 0 [2; 3; 4]%Z int8 RefBackend.initial
           0%nat [RefBackend.mk_gnode 0 [2; 3; 4]%Z 8] eq_refl).
Defined.

(** C8. On a non-empty sequence of handles that share their factory,
    [__generate_op] makes one dispatch, to that factory and under the
    given operation name, with the nodes of the handles in input order
    followed by the extra arguments as given; it returns a new handle
    that wraps the returned node and has the same factory, and passes
    on a failure of the dispatch. *)
Theorem C8_generate_op_dispatches_in_order {BE : Backend}
    tensors objs f op args kwargs (w : world BE) :
  tensors ≠ [] →
  refer_to w tensors objs →
  Forall (λ o, factory o = f) objs →
  __generate_op tensors op args kwargs w =
    match be_op BE f op (node <$> objs) args kwargs (backend w) with
    | (Ok n, b) =>
        (Ok (length (heap w)),
         mkWorld b (trace w ++ [EvOp f op (node <$> objs) args kwargs])
                 (heap w ++ [mkTensor f n]))
    | (Raise e, b) =>
        (Raise e,
         mkWorld b (trace w ++ [EvOp f op (node <$> objs) args kwargs]) (heap w))
    end.
Proof. apply generate_op_same_factory. Qed.

Lemma C8_generate_op_dispatches_in_order_witness :
  __generate_op [1%nat; 0%nat] "eltwise_mul" [] [] one_graph =
    (Ok 2%nat,
     @mkWorld RefBackend.backend
       (backend one_graph ++ [RefBackend.mk_gnode 0 [2; 3]%Z 4])
       (trace one_graph ++ [EvOp 0 "eltwise_mul" [1%nat; 0%nat] [] []])
       (heap one_graph ++ [mkTensor 0 2])).
Proof.
  rewrite (C8_generate_op_dispatches_in_order (BE := RefBackend.backend)
             [1%nat; 0%nat] [mkTensor 0 1; mkTensor 0 0] 0 "eltwise_mul" [] []
             one_graph ltac:(discriminate) ltac:(repeat constructor)
             ltac:(repeat constructor)).
  reflexivity.
Defined.

(** The possible ends of [QMatMul.run]: the messages about the weight
    and the scale are never produced by its own checks. *)
Lemma run_outcomes
    (super_run : QMatMul.t → QMatMul.ndarray → QMatMul.ndarray * QMatMul.ndarray
                 → outcome QMatMul.ndarray)
    (self : QMatMul.t) (X W scale : QMatMul.ndarray) :
  QMatMul.run super_run self X W scale =
    match QMatMul.shape_is (QMatMul.nd_shape X) (QMatMul.batch self) (QMatMul.inC self) with
    | Ok true => super_run self X (W, scale)
    | Ok false => Raise (RuntimeError (QMatMul.input_message self X W scale))
    | Raise e => Raise e
    end.
Proof.
  unfold QMatMul.run, QMatMul.input_condition, QMatMul.weight_condition,
    QMatMul.scale_condition.
  destruct (QMatMul.shape_is _ _ _) as [[|]|e]; reflexivity.
Qed.

(** C9. The three shape checks of [QMatMul.run] are one and the same
    test of the first two dimensions of [X] against [(batch, inC)];
    none of them looks at [W] or [scale].  So when [X] has the expected
    shape no check raises, whatever the shapes of [W] and [scale], and
    the call goes through to the factory's [run]. *)
Theorem C9_run_checks_only_X
    (super_run : QMatMul.t → QMatMul.ndarray → QMatMul.ndarray * QMatMul.ndarray
                 → outcome QMatMul.ndarray)
    (self : QMatMul.t) (X : QMatMul.ndarray) :
  (∀ W scale,
     QMatMul.weight_condition self X W scale = QMatMul.input_condition self X W scale ∧
     QMatMul.scale_condition self X W scale = QMatMul.input_condition self X W scale) ∧
  (∀ W scale W' scale',
     QMatMul.input_condition self X W scale = QMatMul.input_condition self X W' scale') ∧
  (QMatMul.nd_shape X = [QMatMul.batch self; QMatMul.inC self] →
   ∀ W scale, QMatMul.run super_run self X W scale = super_run self X (W, scale)).
Proof.
  split; [|split].
  - intros W scale. split; reflexivity.
  - reflexivity.
  - intros HX W scale.
    assert (QMatMul.shape_is (QMatMul.nd_shape X) (QMatMul.batch self)
              (QMatMul.inC self) = Ok true) as Hcheck.
    { rewrite HX. unfold QMatMul.shape_is.
      change (py_getitem "tuple" [QMatMul.batch self; QMatMul.inC self] 0)
        with (Ok (QMatMul.batch self)).
      change (py_getitem "tuple" [QMatMul.batch self; QMatMul.inC self] 1)
        with (Ok (QMatMul.inC self)).
      cbn [QMatMul.obind]. rewrite !Z.eqb_refl. reflexivity. }
    unfold QMatMul.run, QMatMul.input_condition, QMatMul.weight_condition,
      QMatMul.scale_condition.
    rewrite Hcheck. reflexivity.
Qed.

Lemma C9_run_checks_only_X_witness :
  QMatMul.run (λ _ X _, Ok X) (QMatMul.mk 3 4 2)
    (QMatMul.mk_ndarray [2; 3]%Z 0) (QMatMul.mk_ndarray [7]%Z 1) (QMatMul.mk_ndarray [] 2)
  = Ok (QMatMul.mk_ndarray [2; 3]%Z 0).
Proof.
  exact (proj2 (proj2 (C9_run_checks_only_X (λ _ X _, Ok X) (QMatMul.mk 3 4 2)
                         (QMatMul.mk_ndarray [2; 3]%Z 0)))
           eq_refl (QMatMul.mk_ndarray [7]%Z 1) (QMatMul.mk_ndarray [] 2)).
Defined.

(** C10. The frame half of the claim holds and the result half fails
    on the code: every operator leaves the object store as it was, so
    the operands keep their factory and node, but none of the nine
    ever returns a handle, new or old: each ends in an exception. *)
Theorem C10_operators_return_no_handle {BE : Backend} (a b : pyref) (axis : Z) :
  (keeps_heap BE (__add__ a b) ∧ returns_nothing BE (__add__ a b)) ∧
  (keeps_heap BE (__sub__ a b) ∧ returns_nothing BE (__sub__ a b)) ∧
  (keeps_heap BE (__mul__ a b) ∧ returns_nothing BE (__mul__ a b)) ∧
  (keeps_heap BE (__truediv__ a b) ∧ returns_nothing BE (__truediv__ a b)) ∧
  (keeps_heap BE (__neg__ a) ∧ returns_nothing BE (__neg__ a)) ∧
  (keeps_heap BE (T a) ∧ returns_nothing BE (T a)) ∧
  (keeps_heap BE (squeeze a) ∧ returns_nothing BE (squeeze a)) ∧
  (keeps_heap BE (unsqueeze a axis) ∧ returns_nothing BE (unsqueeze a axis)) ∧
  (keeps_heap BE (__matmul__ a b) ∧ returns_nothing BE (__matmul__ a b)).
Proof.
  repeat apply conj; try apply T_keeps_heap; try apply T_returns_nothing;
    intros w;
    destruct (methods_stop_at_load a b axis w)
      as (Hadd & Hsub & Hmul & Hdiv & Hmat & Hneg & Hsq & Hun);
    try intros h;
    rewrite ?Hadd, ?Hsub, ?Hmul, ?Hdiv, ?Hmat, ?Hneg, ?Hsq, ?Hun;
    first [reflexivity | discriminate].
Qed.

(** ** Further properties of tensor.py *)

Lemma trace_grew {BE : Backend} (w : world BE) b ev h :
  mkWorld b (trace w ++ [ev]) h ≠ w.
Proof.
  intros Heq. apply (f_equal trace) in Heq. cbn in Heq.
  apply (f_equal length) in Heq. rewrite length_app in Heq. cbn in Heq. lia.
Qed.

(** X1. The ownership check of [__generate_op] rejects exactly the
    empty sequence and the sequences in which two handles have
    different factories, and a rejection leaves the backend, the trace
    and the object store as they were. *)
Theorem generate_op_rejects_iff_mixed {BE : Backend}
    tensors objs op args kwargs (w : world BE) :
  refer_to w tensors objs →
  __generate_op tensors op args kwargs w =
    (Raise (ValueError "All tensors must be from the same factory"), w)
  ↔ tensors = [] ∨ ∃ o1 o2, o1 ∈ objs ∧ o2 ∈ objs ∧ factory o1 ≠ factory o2.
Proof.
  intros Href. split.
  - intros Hrej. destruct Href as [|t o ts os Ht Hts]; [left; reflexivity|]. right.
    destruct (decide (Forall (λ o', factory o' = factory o) os)) as [Hall|Hnot].
    + exfalso.
      pose proof (generate_op_same_factory (t :: ts) (o :: os) (factory o)
                    op args kwargs w ltac:(discriminate)
                    ltac:(constructor; assumption)
                    ltac:(constructor; [reflexivity|assumption])) as Hrun.
      pose proof (eq_trans (eq_sym Hrun) Hrej) as Heq. clear Hrun Hrej.
      destruct (be_op BE (factory o) op (node <$> o :: os) args kwargs (backend w))
        as [[n|e] b]; [discriminate|].
      injection Heq as _ Heq. exact (trace_grew _ _ _ _ Heq).
    + apply not_Forall_Exists in Hnot; [|intros x; apply _].
      apply Exists_exists in Hnot as (o2 & Hin & Hne).
      exists o, o2. split; [set_solver|]. split; [set_solver|].
      intros Heq. apply Hne. cbn. symmetry. exact Heq.
  - intros [-> | (o1 & o2 & H1 & H2 & Hne)].
    + reflexivity.
    + exact (generate_op_two_factories _ _ o1 o2 _ _ _ _ Href H1 H2 Hne).
Qed.

Lemma generate_op_rejects_iff_mixed_witness :
  __generate_op [0%nat; 1%nat] "matmul" [] [] two_graphs =
    (Raise (ValueError "All tensors must be from the same factory"), two_graphs).
Proof.
  apply (generate_op_rejects_iff_mixed (BE := RefBackend.backend)
           [0%nat; 1%nat] [mkTensor 0 0; mkTensor 1 1] "matmul" [] [] two_graphs
           ltac:(repeat constructor)).
  right. exists (mkTensor 0 0), (mkTensor 1 1).
  split; [set_solver|]. split; [set_solver|]. discriminate.
Defined.

(** X2. The primitive called twice in a row, "negative" on [b] and
    then "eltwise_add" on [a] and the result, with [a] and [b] of two
    different factories, on any backend: the first call passes its own
    check and is dispatched on the factory of [b].  If the backend
    accepts it, the negated node and its handle stay and the second
    call ends in the ownership error; if the backend rejects it, the
    sequence ends in the backend's error. *)
Theorem negate_then_add_dispatches_before_check {BE : Backend}
    a b oa ob (w : world BE) :
  heap w !! a = Some oa → heap w !! b = Some ob → factory oa ≠ factory ob →
  negate_then_add a b w =
    match be_op BE (factory ob) "negative" [node ob] [] [] (backend w) with
    | (Raise e, b1) =>
        (Raise e,
         mkWorld b1 (trace w ++ [EvOp (factory ob) "negative" [node ob] [] []]) (heap w))
    | (Ok n1, b1) =>
        (Raise (ValueError "All tensors must be from the same factory"),
         mkWorld b1 (trace w ++ [EvOp (factory ob) "negative" [node ob] [] []])
                 (heap w ++ [mkTensor (factory ob) n1]))
    end.
Proof. intros Ha Hb Hne. exact (negate_then_add_two_factories a b oa ob w Ha Hb Hne). Qed.

Lemma negate_then_add_dispatches_before_check_witness :
  negate_then_add 0 1 two_graphs =
    (Raise (ValueError "All tensors must be from the same factory"),
     @mkWorld RefBackend.backend
       (backend two_graphs ++ [RefBackend.mk_gnode 1 [2; 3]%Z 4])
       (trace two_graphs ++ [EvOp 1 "negative" [1%nat] [] []])
       (heap two_graphs ++ [mkTensor 1 2])).
Proof.
  rewrite (negate_then_add_dispatches_before_check (BE := RefBackend.backend) 0 1
             (mkTensor 0 0) (mkTensor 1 1) two_graphs eq_refl eq_refl
             ltac:(discriminate)).
  reflexivity.
Defined.

(** X3. Calls of the primitive are not rolled back.  With "negative"
    on [b] followed by "eltwise_add" on [a] and the result, on handles
    of one factory: when the backend rejects the negation, that one
    request is all that happened; when it accepts the negation and
    rejects the addition, the error of the addition is raised and the
    negated node and its handle stay; when it accepts both, exactly
    these two requests were made and the handle on the sum is new. *)
Theorem negate_then_add_is_not_rolled_back {BE : Backend} a b oa ob (w : world BE) :
  heap w !! a = Some oa → heap w !! b = Some ob → factory oa = factory ob →
  (∀ e b1,
     be_op BE (factory oa) "negative" [node ob] [] [] (backend w) = (Raise e, b1) →
     negate_then_add a b w =
       (Raise e,
        mkWorld b1 (trace w ++ [EvOp (factory oa) "negative" [node ob] [] []]) (heap w))) ∧
  (∀ n1 b1 e b2,
     be_op BE (factory oa) "negative" [node ob] [] [] (backend w) = (Ok n1, b1) →
     be_op BE (factory oa) "eltwise_add" [node oa; n1] [] [] b1 = (Raise e, b2) →
     negate_then_add a b w =
       (Raise e,
        mkWorld b2
          (trace w ++ [EvOp (factory oa) "negative" [node ob] [] [];
                       EvOp (factory oa) "eltwise_add" [node oa; n1] [] []])
          (heap w ++ [mkTensor (factory oa) n1]))) ∧
  (∀ n1 b1 n2 b2,
     be_op BE (factory oa) "negative" [node ob] [] [] (backend w) = (Ok n1, b1) →
     be_op BE (factory oa) "eltwise_add" [node oa; n1] [] [] b1 = (Ok n2, b2) →
     negate_then_add a b w =
       (Ok (S (length (heap w))),
        mkWorld b2
          (trace w ++ [EvOp (factory oa) "negative" [node ob] [] [];
                       EvOp (factory oa) "eltwise_add" [node oa; n1] [] []])
          (heap w ++ [mkTensor (factory oa) n1; mkTensor (factory oa) n2]))).
Proof.
  intros Ha Hb Hf.
  pose proof (negate_then_add_same_factory a b oa ob w Ha Hb Hf) as Hsub.
  cbv zeta in Hsub.
  split; [|split].
  - intros e b1 Hneg. rewrite Hsub, Hneg. reflexivity.
  - intros n1 b1 e b2 Hneg Hadd. rewrite Hsub, Hneg, Hadd. reflexivity.
  - intros n1 b1 n2 b2 Hneg Hadd. rewrite Hsub, Hneg, Hadd. reflexivity.
Qed.

Lemma negate_then_add_is_not_rolled_back_witness :
  negate_then_add 0 1 stale_graph =
    (Raise (ForeignError "unknown node"),
     @mkWorld RefBackend.backend
       [RefBackend.mk_gnode 0 [2]%Z 4; RefBackend.mk_gnode 0 [2]%Z 4]
       [EvOp 0 "negative" [0%nat] [] []; EvOp 0 "eltwise_add" [7%nat; 1%nat] [] []]
       [mkTensor 0 7; mkTensor 0 0; mkTensor 0 1]).
Proof.
  apply (proj1 (proj2 (negate_then_add_is_not_rolled_back (BE := RefBackend.backend)
                  0 1 (mkTensor 0 7) (mkTensor 0 0) stale_graph
                  eq_refl eq_refl eq_refl))
           1%nat [RefBackend.mk_gnode 0 [2]%Z 4; RefBackend.mk_gnode 0 [2]%Z 4]
           (ForeignError "unknown node")
           [RefBackend.mk_gnode 0 [2]%Z 4; RefBackend.mk_gnode 0 [2]%Z 4]);
    reflexivity.
Defined.

(** X4. On a tensor of rank below two, [T] reads the shape and then
    raises IndexError from the swap: no operation is dispatched and no
    handle is created. *)
Theorem T_below_rank_two_raises {BE : Backend} self o (w : world BE) :
  heap w !! self = Some o →
  (be_op_shape_size BE (node o) (backend w) < 2)%Z →
  T self w =
    (Raise (IndexError "list index out of range"),
     mkWorld (backend w)
             (trace w ++ shape_events (node o) (be_op_shape_size BE (node o) (backend w)))
             (heap w)).
Proof. intros Hself Hrank. exact (T_low_rank self o w Hself Hrank). Qed.

Lemma T_below_rank_two_raises_witness :
  T 0 (graph_of [7]%Z) =
    (Raise (IndexError "list index out of range"),
     @mkWorld RefBackend.backend (backend (graph_of [7]%Z))
       (trace (graph_of [7]%Z) ++ [EvShapeSize 0; EvShape 0 0])
       (heap (graph_of [7]%Z))).
Proof.
  rewrite (T_below_rank_two_raises (BE := RefBackend.backend) 0 (mkTensor 0 0)
             (graph_of [7]%Z) eq_refl ltac:(reflexivity)).
  reflexivity.
Defined.

(** X5. On a tensor of rank two or more, [T] reads the shape from the
    backend and then raises NameError at the lookup of its callee: the
    rank query and one query per axis are the only foreign calls, no
    operation is dispatched and no handle is created. *)
Theorem T_at_rank_two_raises_NameError {BE : Backend} self o (w : world BE) :
  heap w !! self = Some o →
  (2 ≤ be_op_shape_size BE (node o) (backend w))%Z →
  T self w =
    (Raise (NameError "name '_Tensor__generate_op' is not defined"),
     mkWorld (backend w)
             (trace w ++ shape_events (node o) (be_op_shape_size BE (node o) (backend w)))
             (heap w)).
Proof. intros Hself Hrank. exact (T_high_rank self o w Hself Hrank). Qed.

Lemma T_at_rank_two_raises_NameError_witness :
  T 0 (graph_of [2; 3; 4]%Z) =
    (Raise (NameError "name '_Tensor__generate_op' is not defined"),
     @mkWorld RefBackend.backend (backend (graph_of [2; 3; 4]%Z))
       (trace (graph_of [2; 3; 4]%Z)
          ++ [EvShapeSize 0; EvShape 0 0; EvShape 0 1; EvShape 0 2])
       (heap (graph_of [2; 3; 4]%Z))).
Proof.
  rewrite (T_at_rank_two_raises_NameError (BE := RefBackend.backend) 0 (mkTensor 0 0)
             (graph_of [2; 3; 4]%Z) eq_refl ltac:(vm_compute; discriminate)).
  reflexivity.
Defined.

Lemma dtype_reads {BE : Backend} self o (w : world BE) :
  heap w !! self = Some o →
  dtype self w =
    (match dtype_table !! be_op_dtype BE (node o) (backend w) with
     | Some d => Ok d
     | None => Raise (RuntimeError "Unsupported dtype")
     end,
     mkWorld (backend w) (trace w ++ [EvDtype (node o)]) (heap w)).
Proof.
  intros Hself. unfold dtype.
  rewrite (bind_ok _ _ _ _ _ (get_node_ok _ _ _ Hself)).
  rewrite (bind_ok _ _ w (be_op_dtype BE (node o) (backend w))
             (mkWorld (backend w) (trace w ++ [EvDtype (node o)]) (heap w)))
    by reflexivity.
  rewrite dtype_table_lookup.
  repeat match goal with
         | |- context [(?c =? ?k)%Z] => destruct (c =? k)%Z; [reflexivity|]
         end; reflexivity.
Qed.

Lemma dtype_table_code (c : Z) (d : NPUDtype) :
  dtype_table !! c = Some d → c = RefBackend.dtype_code d.
Proof.
  rewrite dtype_table_lookup.
  repeat match goal with
         | |- context [(c =? ?k)%Z] =>
             destruct (Z.eqb_spec c k); [intros [= <-]; subst c; reflexivity|]
         end.
  discriminate.
Qed.

Lemma create_tensor_ok {BE : Backend} f shp dt (w : world BE) n b :
  be_parameter BE f shp dt (backend w) = (Ok n, b) →
  create_tensor f shp dt w =
    (Ok (length (heap w)),
     mkWorld b (trace w ++ [EvParameter f shp dt]) (heap w ++ [mkTensor f n])).
Proof.
  intros Hpar. unfold create_tensor, bind, factory_parameter, new_Tensor, log.
  rewrite Hpar. reflexivity.
Qed.

(** X6. [shape] is not cached: two reads in a row ask the backend
    twice, rank first and then every axis in order, and give the same
    list, whose length is the rank; neither read changes the backend or
    the object store. *)
Theorem shape_is_read_again_each_time {BE : Backend} self o (w : world BE) :
  heap w !! self = Some o →
  let rank := be_op_shape_size BE (node o) (backend w) in
  let dims := (λ i, be_op_shape BE (node o) i (backend w)) <$> py_range rank in
  (first <- shape self ;; second <- shape self ;; ret (first, second)) w =
    (Ok (dims, dims),
     mkWorld (backend w)
       (trace w ++ shape_events (node o) rank ++ shape_events (node o) rank)
       (heap w)) ∧
  length dims = Z.to_nat rank.
Proof.
  intros Hself rank dims. split.
  - rewrite (bind_ok _ _ _ _ _ (shape_reads self o w Hself)).
    set (w1 := mkWorld (backend w) _ (heap w)).
    rewrite (bind_ok _ _ _ _ _ (shape_reads self o w1 Hself)).
    unfold ret, w1. cbn [backend trace heap]. rewrite <- app_assoc. reflexivity.
  - unfold dims. rewrite length_fmap. apply py_range_length.
Qed.

Lemma shape_is_read_again_each_time_witness :
  (first <- shape 0 ;; second <- shape 0 ;; ret (first, second)) (graph_of [4; 5]%Z) =
    (Ok ([4; 5]%Z, [4; 5]%Z),
     @mkWorld RefBackend.backend (backend (graph_of [4; 5]%Z))
       (trace (graph_of [4; 5]%Z)
          ++ [EvShapeSize 0; EvShape 0 0; EvShape 0 1]
          ++ [EvShapeSize 0; EvShape 0 0; EvShape 0 1])
       (heap (graph_of [4; 5]%Z))).
Proof.
  exact (proj1 (shape_is_read_again_each_time (BE := RefBackend.backend) 0
                  (mkTensor 0 0) (graph_of [4; 5]%Z) eq_refl)).
Defined.

(** X7. When the backend reports a rank that is zero or negative,
    [shape] is the empty list, [__len__] returns the float 1.0 that
    [np.product] makes of it, and the builtin [len] raises TypeError;
    the rank query is the only foreign call made. *)
Theorem len_without_axes_raises_TypeError {BE : Backend}
    (np_wide : list Z → np_scalar) self o (w : world BE) :
  heap w !! self = Some o →
  (be_op_shape_size BE (node o) (backend w) ≤ 0)%Z →
  let w' := mkWorld (backend w) (trace w ++ [EvShapeSize (node o)]) (heap w) in
  shape self w = (Ok [], w') ∧
  __len__ np_wide self w = (Ok (np_float64 (QArith_base.Qmake 1 1)), w') ∧
  len np_wide self w =
    (Raise (TypeError "'numpy.float64' object cannot be interpreted as an integer"), w').
Proof.
  intros Hself Hrank w'.
  assert (shape self w = (Ok [], w')) as Hshape.
  { rewrite (shape_reads self o w Hself). unfold shape_events, py_range.
    replace (Z.to_nat (be_op_shape_size BE (node o) (backend w))) with 0%nat by lia.
    reflexivity. }
  pose proof (len_of_shape np_wide _ _ _ _ Hshape) as Hlen.
  split; [exact Hshape|]. split; [exact Hlen|].
  unfold len. rewrite (bind_ok _ _ _ _ _ Hlen). reflexivity.
Qed.

Lemma len_without_axes_raises_TypeError_witness :
  len (λ _, py_int 0) 0 (graph_of []) =
    (Raise (TypeError "'numpy.float64' object cannot be interpreted as an integer"),
     @mkWorld RefBackend.backend (backend (graph_of []))
       (trace (graph_of []) ++ [EvShapeSize 0]) (heap (graph_of []))).
Proof.
  exact (proj2 (proj2 (len_without_axes_raises_TypeError (BE := RefBackend.backend)
                         (λ _, py_int 0) 0 (mkTensor 0 0)
                         (graph_of []) eq_refl ltac:(vm_compute; discriminate)))).
Defined.

Lemma wrap_int64_range (z : Z) : (- 2 ^ 63 ≤ wrap_int64 z < 2 ^ 63)%Z.
Proof.
  unfold wrap_int64.
  pose proof (Z.mod_pos_bound (z + 2 ^ 63) (2 ^ 64) ltac:(lia)). lia.
Qed.

Lemma wrap_int64_small (z : Z) : (- 2 ^ 63 ≤ z < 2 ^ 63)%Z → wrap_int64 z = z.
Proof. intros Hz. unfold wrap_int64. rewrite Z.mod_small by lia. lia. Qed.

Lemma builtin_len_int64 (z : Z) :
  (- 2 ^ 63 ≤ z < 2 ^ 63)%Z →
  builtin_len (np_int64 z) =
    if (z <? 0)%Z then Raise (ValueError "__len__() should return >= 0") else Ok z.
Proof.
  intros Hz. unfold builtin_len, sys_maxsize.
  destruct (Z.ltb_spec (2 ^ 63 - 1) z); [lia|].
  destruct (Z.ltb_spec z (- (2 ^ 63 - 1) - 1)); [lia|]. reflexivity.
Qed.

(** X16. On a tensor of rank one or more whose dimensions fit in 64
    signed bits, [len] is the product of the dimensions multiplied
    with 64-bit wrap-around: it raises ValueError when that wrapped
    product is negative, and it is the exact product whenever the
    exact product lies between 0 and 2^63 - 1. *)
Theorem len_is_wrapped_product {BE : Backend}
    (np_wide : list Z → np_scalar) self o (w : world BE) :
  heap w !! self = Some o →
  let rank := be_op_shape_size BE (node o) (backend w) in
  let dims := (λ i, be_op_shape BE (node o) i (backend w)) <$> py_range rank in
  (1 ≤ rank)%Z →
  forallb fits_int64 dims = true →
  (len np_wide self w).1 =
    (if (wrap_int64 (foldr Z.mul 1%Z dims) <? 0)%Z
     then Raise (ValueError "__len__() should return >= 0")
     else Ok (wrap_int64 (foldr Z.mul 1%Z dims))) ∧
  ((0 ≤ foldr Z.mul 1%Z dims < 2 ^ 63)%Z →
   (len np_wide self w).1 = Ok (foldr Z.mul 1%Z dims)).
Proof.
  intros Hself rank dims Hrank Hfit.
  assert ((len np_wide self w).1 = builtin_len (np_int64 (wrap_int64 (foldr Z.mul 1%Z dims))))
    as Hlen.
  { unfold len.
    rewrite (bind_ok _ _ _ _ _ (len_of_shape np_wide _ _ _ _ (shape_reads self o w Hself))).
    fold rank. fold dims. unfold lift, np_product. cbn [fst].
    destruct dims as [|d ds] eqn:Ed.
    - apply (f_equal length) in Ed. unfold dims in Ed.
      rewrite length_fmap, py_range_length in Ed. cbn in Ed. lia.
    - rewrite Hfit. reflexivity. }
  rewrite Hlen, builtin_len_int64 by apply wrap_int64_range.
  split; [reflexivity|].
  intros Hp. rewrite wrap_int64_small by lia.
  destruct (Z.ltb_spec (foldr Z.mul 1%Z dims) 0); [lia|reflexivity].
Qed.

Lemma len_is_wrapped_product_witness :
  (len (λ _, py_int 0) 0 (graph_of [4; 5]%Z)).1 = Ok 20%Z.
Proof.
  exact (proj2 (len_is_wrapped_product (BE := RefBackend.backend) (λ _, py_int 0)
                  0 (mkTensor 0 0) (graph_of [4; 5]%Z) eq_refl
                  ltac:(vm_compute; discriminate) eq_refl)
           ltac:(vm_compute; split; [discriminate|reflexivity])).
Defined.

(** X8. Two tensors created one after the other and handed to the
    primitive with "eltwise_add": both [parameter] requests are made in
    order; when the two factories differ the call is rejected with the
    ownership error and no operation is dispatched, and when they are
    the same one "eltwise_add" is dispatched on the two new nodes in
    creation order. *)
Theorem created_tensors_combine {BE : Backend}
    f g shp1 dt1 shp2 dt2 (w : world BE) n1 b1 n2 b2 :
  be_parameter BE f shp1 dt1 (backend w) = (Ok n1, b1) →
  be_parameter BE g shp2 dt2 b1 = (Ok n2, b2) →
  let prog := (a <- create_tensor f shp1 dt1 ;;
               b <- create_tensor g shp2 dt2 ;;
               __generate_op [a; b] "eltwise_add" [] []) in
  let tr := trace w ++ [EvParameter f shp1 dt1; EvParameter g shp2 dt2] in
  let hp := heap w ++ [mkTensor f n1; mkTensor g n2] in
  (f ≠ g →
   prog w = (Raise (ValueError "All tensors must be from the same factory"),
             mkWorld b2 tr hp)) ∧
  (f = g →
   prog w =
     match be_op BE f "eltwise_add" [n1; n2] [] [] b2 with
     | (Ok n, b) =>
         (Ok (S (S (length (heap w)))),
          mkWorld b (tr ++ [EvOp f "eltwise_add" [n1; n2] [] []]) (hp ++ [mkTensor f n]))
     | (Raise e, b) =>
         (Raise e, mkWorld b (tr ++ [EvOp f "eltwise_add" [n1; n2] [] []]) hp)
     end).
Proof.
  intros Hp1 Hp2 prog tr hp.
  set (w2 := mkWorld b2 tr hp).
  assert (∀ k : pyref → pyref → M BE pyref,
            (a <- create_tensor f shp1 dt1 ;; b <- create_tensor g shp2 dt2 ;; k a b) w
            = k (length (heap w)) (S (length (heap w))) w2) as Hcreate.
  { intros k.
    rewrite (bind_ok _ _ _ _ _ (create_tensor_ok f shp1 dt1 w n1 b1 Hp1)).
    set (w1 := mkWorld b1 _ _).
    rewrite (bind_ok _ _ _ _ _ (create_tensor_ok g shp2 dt2 w1 n2 b2 Hp2)).
    unfold w1, w2, tr, hp. cbn [backend trace heap].
    rewrite length_app, Nat.add_1_r, <- !app_assoc. reflexivity. }
  assert (refer_to w2 [length (heap w); S (length (heap w))]
            [mkTensor f n1; mkTensor g n2]) as Href.
  { constructor; [|constructor; [|constructor]]; unfold w2, hp; cbn [heap].
    - rewrite lookup_app_r by reflexivity. rewrite Nat.sub_diag. reflexivity.
    - rewrite lookup_app_r by lia.
      replace (S (length (heap w)) - length (heap w))%nat with 1%nat by lia.
      reflexivity. }
  unfold prog. rewrite Hcreate. split.
  - intros Hne.
    apply (generate_op_two_factories _ _ (mkTensor f n1) (mkTensor g n2) _ _ _ _ Href);
      [set_solver|set_solver|exact Hne].
  - intros <-.
    etrans.
    { apply (generate_op_same_factory [length (heap w); S (length (heap w))]
               [mkTensor f n1; mkTensor f n2] f); [discriminate|exact Href|].
      repeat constructor. }
    cbn [fmap list_fmap node]. unfold w2. cbn [backend trace heap].
    unfold hp. rewrite length_app, Nat.add_comm. reflexivity.
Qed.

Lemma created_tensors_combine_witness :
  (a <- create_tensor 0 [2; 3]%Z int8 ;;
   b <- create_tensor 1 [2; 3]%Z int8 ;;
   __generate_op [a; b] "eltwise_add" [] []) RefBackend.initial =
    (Raise (ValueError "All tensors must be from the same factory"),
     @mkWorld RefBackend.backend
       [RefBackend.mk_gnode 0 [2; 3]%Z 8; RefBackend.mk_gnode 1 [2; 3]%Z 8]
       [EvParameter 0 [2; 3]%Z int8; EvParameter 1 [2; 3]%Z int8]
       [mkTensor 0 0; mkTensor 1 1]).
Proof.
  apply (proj1 (created_tensors_combine (BE := RefBackend.backend)
                  0 1 [2; 3]%Z int8 [2; 3]%Z int8 RefBackend.initial
                  0%nat [RefBackend.mk_gnode 0 [2; 3]%Z 8]
                  1%nat [RefBackend.mk_gnode 0 [2; 3]%Z 8; RefBackend.mk_gnode 1 [2; 3]%Z 8]
                  eq_refl eq_refl)).
  discriminate.
Defined.

(** X9. The eight operator methods whose body is a single call,
    [+], [-], [*], [/], [@], unary minus, [squeeze] and [unsqueeze],
    raise NameError for [_Tensor__generate_op] on any operands, also
    on objects that are not tensors: nothing is read from the
    operands, no foreign call is made, and in [a - b] the negation of
    [b] is not evaluated. *)
Theorem operator_methods_raise_NameError {BE : Backend}
    (a b : pyref) (axis : Z) (w : world BE) :
  let stopped := (Raise (NameError "name '_Tensor__generate_op' is not defined"), w) in
  mangle "Tensor" "__generate_op" = "_Tensor__generate_op" ∧
  __add__ a b w = stopped ∧ __sub__ a b w = stopped ∧ __mul__ a b w = stopped ∧
  __truediv__ a b w = stopped ∧ __matmul__ a b w = stopped ∧
  __neg__ a w = stopped ∧ squeeze a w = stopped ∧ unsqueeze a axis w = stopped.
Proof. split; [reflexivity|]. exact (methods_stop_at_load a b axis w). Qed.

(** X10. The primitive never changes an object that exists and never
    hands back one: whatever the handles, the operation and the
    arguments, every object in the store before the call is there
    afterwards with the same factory and node, and a handle it
    returns is a new object. *)
Theorem generate_op_preserves_objects {BE : Backend}
    (tensors : list pyref) (op : string) (args : list pyarg)
    (kwargs : list (string * pyarg)) :
  preserves_operands (BE := BE) (__generate_op tensors op args kwargs).
Proof. apply grows_preserves, grows_generate_op. Qed.

(** X11. The dtype query decodes one-to-one: two nodes for which it
    returns the same semantic type have the same backend code, a code
    between 2 and 11; and each of the ten semantic types is returned
    for some code. *)
Theorem dtype_decoding_is_one_to_one {BE : Backend} :
  (∀ a b oa ob (w : world BE) d,
     heap w !! a = Some oa → heap w !! b = Some ob →
     (dtype a w).1 = Ok d → (dtype b w).1 = Ok d →
     be_op_dtype BE (node oa) (backend w) = be_op_dtype BE (node ob) (backend w) ∧
     (2 ≤ be_op_dtype BE (node oa) (backend w) ≤ 11)%Z) ∧
  (∀ d : NPUDtype, ∃ c : Z,
     ∀ self o (w : world BE),
       heap w !! self = Some o → be_op_dtype BE (node o) (backend w) = c →
       (dtype self w).1 = Ok d).
Proof.
  split.
  - intros a b oa ob w d Ha Hb Hda Hdb.
    rewrite (dtype_reads a oa w Ha) in Hda.
    rewrite (dtype_reads b ob w Hb) in Hdb. cbn [fst] in *.
    destruct (dtype_table !! be_op_dtype BE (node oa) (backend w)) as [da|] eqn:Ea;
      [|discriminate].
    destruct (dtype_table !! be_op_dtype BE (node ob) (backend w)) as [db|] eqn:Eb;
      [|discriminate].
    injection Hda as ->. injection Hdb as ->.
    apply dtype_table_code in Ea as Hca. apply dtype_table_code in Eb as Hcb.
    split; [congruence|]. rewrite Hca. destruct d; cbn; lia.
  - intros d. exists (RefBackend.dtype_code d). intros self o w Hself Hc.
    rewrite (dtype_reads self o w Hself), Hc, dtype_table_lookup.
    destruct d; reflexivity.
Qed.

Lemma dtype_decoding_is_one_to_one_witness :
  be_op_dtype RefBackend.backend 0 (backend one_graph)
    = be_op_dtype RefBackend.backend 1 (backend one_graph) ∧
  (2 ≤ be_op_dtype RefBackend.backend 0%nat (backend one_graph) ≤ 11)%Z.
Proof.
  exact (proj1 (dtype_decoding_is_one_to_one (BE := RefBackend.backend)) 0%nat 1%nat
           (mkTensor 0 0) (mkTensor 0 1) one_graph float16
           eq_refl eq_refl eq_refl eq_refl).
Defined.

(** X12. [repr] and [str] of a tensor are the same text,
    "Tensor(<shape list>, <dtype>)"; both read the shape and then the
    dtype from the backend, and both raise "Unsupported dtype", after
    the shape was read, when the node's type code is outside the
    table. *)
Theorem repr_reads_shape_then_dtype {BE : Backend}
    (str_dtype : NPUDtype → string) self o (w : world BE) :
  heap w !! self = Some o →
  let rank := be_op_shape_size BE (node o) (backend w) in
  let dims := (λ i, be_op_shape BE (node o) i (backend w)) <$> py_range rank in
  __str__ str_dtype self w = __repr__ str_dtype self w ∧
  __repr__ str_dtype self w =
    (match dtype_table !! be_op_dtype BE (node o) (backend w) with
     | Some d => Ok ("Tensor(" +:+ repr_list dims +:+ ", " +:+ str_dtype d +:+ ")")
     | None => Raise (RuntimeError "Unsupported dtype")
     end,
     mkWorld (backend w)
       (trace w ++ shape_events (node o) rank ++ [EvDtype (node o)])
       (heap w)).
Proof.
  intros Hself rank dims. split; [reflexivity|].
  unfold __repr__.
  rewrite (bind_ok _ _ _ _ _ (shape_reads self o w Hself)).
  set (w1 := mkWorld (backend w) _ (heap w)).
  pose proof (dtype_reads self o w1 Hself) as Hd.
  unfold w1 in Hd at 2 3 4 5. cbn [backend trace heap] in Hd.
  rewrite <- app_assoc in Hd.
  destruct (dtype_table !! be_op_dtype BE (node o) (backend w)) as [d|].
  - rewrite (bind_ok _ _ _ _ _ Hd). reflexivity.
  - rewrite (bind_raise _ _ _ _ _ Hd). reflexivity.
Qed.

Lemma repr_reads_shape_then_dtype_witness :
  (__repr__ (λ _, "float32") 0 (graph_of [4; 5]%Z)).1 = Ok "Tensor([4, 5], float32)".
Proof.
  rewrite (proj2 (repr_reads_shape_then_dtype (BE := RefBackend.backend)
                    (λ _, "float32") 0 (mkTensor 0 0) (graph_of [4; 5]%Z) eq_refl)).
  reflexivity.
Defined.

(** ** Further properties of qmatmul.py *)

Lemma py_getitem_at {A} (kind : string) (l : list A) (i : Z) (a : A) :
  (0 ≤ i)%Z → l !! Z.to_nat i = Some a → py_getitem kind l i = Ok a.
Proof.
  intros Hi Hl. unfold py_getitem, py_index.
  pose proof (lookup_lt_Some _ _ _ Hl) as Hlt.
  destruct (Z.leb_spec 0 i); [|lia].
  destruct (Z.ltb_spec i (Z.of_nat (length l))); [|lia].
  rewrite Hl. reflexivity.
Qed.

Lemma shape_is_two (d0 d1 b c : Z) (rest : list Z) :
  QMatMul.shape_is (d0 :: d1 :: rest) b c = Ok ((d0 =? b)%Z && (d1 =? c)%Z).
Proof.
  unfold QMatMul.shape_is.
  rewrite (py_getitem_at "tuple" (d0 :: d1 :: rest) 0 d0) by (reflexivity || lia).
  rewrite (py_getitem_at "tuple" (d0 :: d1 :: rest) 1 d1) by (reflexivity || lia).
  cbn [QMatMul.obind]. destruct (d0 =? b)%Z; reflexivity.
Qed.

(** X13. [QMatMul.run] compares only the first two dimensions of [X]:
    an [X] of rank two or more goes through to the factory's [run]
    exactly when its first dimension is [batch] and its second is
    [inC], whatever follows and whatever [W] and [scale] are;
    otherwise the error raised is the one about the input shape. *)
Theorem run_compares_first_two_dims
    (super_run : QMatMul.t → QMatMul.ndarray → QMatMul.ndarray * QMatMul.ndarray
                 → outcome QMatMul.ndarray)
    (self : QMatMul.t) (X W scale : QMatMul.ndarray) (d0 d1 : Z) (rest : list Z) :
  QMatMul.nd_shape X = d0 :: d1 :: rest →
  QMatMul.run super_run self X W scale =
    if ((d0 =? QMatMul.batch self)%Z && (d1 =? QMatMul.inC self)%Z)%bool
    then super_run self X (W, scale)
    else Raise (RuntimeError (QMatMul.input_message self X W scale)).
Proof.
  intros HX. rewrite run_outcomes, HX, shape_is_two.
  destruct (_ && _)%bool; reflexivity.
Qed.

Lemma run_compares_first_two_dims_witness :
  QMatMul.run (λ _ X _, Ok X) (QMatMul.mk 3 4 2)
    (QMatMul.mk_ndarray [2; 3; 9]%Z 0) (QMatMul.mk_ndarray [] 1) (QMatMul.mk_ndarray [] 2)
  = Ok (QMatMul.mk_ndarray [2; 3; 9]%Z 0).
Proof.
  exact (run_compares_first_two_dims (λ _ X _, Ok X) (QMatMul.mk 3 4 2)
           (QMatMul.mk_ndarray [2; 3; 9]%Z 0) (QMatMul.mk_ndarray [] 1)
           (QMatMul.mk_ndarray [] 2) 2 3 [9]%Z eq_refl).
Defined.

(** X14. [QMatMul.run] on an [X] of rank below two: a rank-0 [X]
    raises IndexError; a rank-1 [X] raises IndexError when its only
    dimension equals [batch], and the error about the input shape when
    it does not, because the second subscript is not evaluated then.
    The factory's [run] is not reached. *)
Theorem run_on_low_rank_X
    (super_run : QMatMul.t → QMatMul.ndarray → QMatMul.ndarray * QMatMul.ndarray
                 → outcome QMatMul.ndarray)
    (self : QMatMul.t) (X W scale : QMatMul.ndarray) :
  (QMatMul.nd_shape X = [] →
   QMatMul.run super_run self X W scale = Raise (IndexError "tuple index out of range")) ∧
  (∀ d, QMatMul.nd_shape X = [d] →
   QMatMul.run super_run self X W scale =
     if (d =? QMatMul.batch self)%Z
     then Raise (IndexError "tuple index out of range")
     else Raise (RuntimeError (QMatMul.input_message self X W scale))).
Proof.
  split.
  - intros HX. rewrite run_outcomes, HX. reflexivity.
  - intros d HX. rewrite run_outcomes, HX. unfold QMatMul.shape_is.
    change (py_getitem "tuple" [d] 0) with (Ok d). cbn [QMatMul.obind].
    destruct (d =? QMatMul.batch self)%Z; reflexivity.
Qed.

Lemma run_on_low_rank_X_witness :
  QMatMul.run (λ _ X _, Ok X) (QMatMul.mk 3 4 2)
    (QMatMul.mk_ndarray [2]%Z 0) (QMatMul.mk_ndarray [] 1) (QMatMul.mk_ndarray [] 2)
  = Raise (IndexError "tuple index out of range").
Proof.
  exact (proj2 (run_on_low_rank_X (λ _ X _, Ok X) (QMatMul.mk 3 4 2)
                  (QMatMul.mk_ndarray [2]%Z 0) (QMatMul.mk_ndarray [] 1)
                  (QMatMul.mk_ndarray [] 2)) 2%Z eq_refl).
Defined.

(** X15. Whatever its arguments, [QMatMul.run] ends in one of three
    ways: with the result of the factory's [run], which happens only
    when the shape of [X] starts with [batch] and [inC]; with the error
    about the input shape; or with IndexError.  Its own checks never
    raise the errors about the weight or the scale shape. *)
Theorem run_ends_in_one_of_three
    (super_run : QMatMul.t → QMatMul.ndarray → QMatMul.ndarray * QMatMul.ndarray
                 → outcome QMatMul.ndarray)
    (self : QMatMul.t) (X W scale : QMatMul.ndarray) :
  (QMatMul.run super_run self X W scale = super_run self X (W, scale) ∧
   ∃ rest, QMatMul.nd_shape X = QMatMul.batch self :: QMatMul.inC self :: rest) ∨
  QMatMul.run super_run self X W scale
    = Raise (RuntimeError (QMatMul.input_message self X W scale)) ∨
  QMatMul.run super_run self X W scale = Raise (IndexError "tuple index out of range").
Proof.
  destruct (QMatMul.nd_shape X) as [|d0 [|d1 rest]] eqn:HX.
  - right. right. exact (proj1 (run_on_low_rank_X super_run self X W scale) HX).
  - rewrite (proj2 (run_on_low_rank_X super_run self X W scale) d0 HX).
    destruct (d0 =? QMatMul.batch self)%Z; [right; right|right; left]; reflexivity.
  - rewrite (run_compares_first_two_dims super_run self X W scale d0 d1 rest HX).
    destruct (Z.eqb_spec d0 (QMatMul.batch self)) as [->|];
      [|right; left; reflexivity].
    destruct (Z.eqb_spec d1 (QMatMul.inC self)) as [->|];
      [|right; left; reflexivity].
    left. split; [reflexivity|]. exists rest. reflexivity.
Qed.
